(** * Deploying Llama 3 70B and Mixtral 8x7B on AWS Inferentia2

    A shallow embedding of the code cells of the two notebooks
    (deploy-llama-3-70b-inferentia2 and deploy-mixtral-8x7b-inferentia2):
    the endpoint configuration, the deploy call, the chat request, the
    reader of the llmperf summary, and the clean-up cell.

    Python values are an inductive type, Python floats are IEEE binary64
    numbers ([spec_float] at precision 53), and a code cell is a small
    program over the calls it makes to the outside world (SageMaker SDK,
    file system, shell), interpreted against a world that answers them. *)

From Stdlib Require Import ZArith QArith Qabs List String Ascii Bool Lia DecimalString DecimalPos DecimalZ.
From Stdlib Require Import Floats.SpecFloat Floats.PrimFloat Floats.FloatOps.
Import ListNotations.

Set Warnings "-inexact-float,-register-all".
Open Scope string_scope.
Open Scope Z_scope.

(** ** Python values *)

(** The values that [json.load] builds and that the cells put in their
    dict literals.  A [str] is the sequence of its characters, one [ascii]
    per character; a dict keeps its items in insertion order. *)
Inductive pyval : Type :=
| PNone
| PBool (b : bool)
| PInt (n : Z)
| PFloat (f : spec_float)
| PStr (s : string)
| PList (l : list pyval)
| PDict (d : list (string * pyval)).

(** A float literal of the source, as the binary64 number Python reads. *)
Definition flt (f : float) : pyval := PFloat (Prim2SF f).

(** The exceptions the cells can end with. *)
Inductive exn : Type :=
| IndexError
| KeyError
| TypeError
| ValueError
| OverflowError
| AttributeError
| JSONDecodeError
| FileNotFoundError
| IsADirectoryError
| ClientError
| Exception (msg : string).

Definition result (A : Type) : Type := (exn + A)%type.

Definition ok {A} (a : A) : result A := inr a.
Definition raise {A} (e : exn) : result A := inl e.

Definition rbind {A B} (r : result A) (f : A -> result B) : result B :=
  match r with
  | inl e => inl e
  | inr a => f a
  end.

Declare Scope result_scope.
Delimit Scope result_scope with result.
Notation "'let?' x ':=' r 'in' k" := (rbind r (fun x => k))
  (at level 10, x name, r at level 100, k at level 200) : result_scope.

(** ** Dicts *)

Section Dict.
Context {V : Type}.

Fixpoint dict_get (k : string) (d : list (string * V)) : option V :=
  match d with
  | [] => None
  | (k', v) :: d' => if String.eqb k k' then Some v else dict_get k d'
  end.

(** [d[k] = v]: an existing key keeps its place, a new one goes last. *)
Fixpoint dict_set (k : string) (v : V) (d : list (string * V)) : list (string * V) :=
  match d with
  | [] => [(k, v)]
  | (k', v') :: d' =>
      if String.eqb k k' then (k', v) :: d' else (k', v') :: dict_set k v d'
  end.

(** [d.update(items)], also what [**items] does inside a dict display. *)
Definition dict_update (d items : list (string * V)) : list (string * V) :=
  fold_left (fun acc kv => dict_set (fst kv) (snd kv) acc) items d.

(** A dict display [{k1: v1, k2: v2, ...}], items evaluated left to right. *)
Definition py_dict (items : list (string * V)) : list (string * V) :=
  dict_update [] items.

Definition dict_keys (d : list (string * V)) : list string := map fst d.
Definition dict_values (d : list (string * V)) : list V := map snd d.
End Dict.

(** ** Subscription [v[i]] *)

Inductive index : Type :=
| IStr (k : string)
| IInt (i : Z).

Definition seq_index {A} (l : list A) (i : Z) : option A :=
  let n := Z.of_nat (List.length l) in
  let j := if i <? 0 then i + n else i in
  if (j <? 0) || (n <=? j) then None else nth_error l (Z.to_nat j).

Definition getitem (v : pyval) (i : index) : result pyval :=
  match v, i with
  | PDict d, IStr k =>
      match dict_get k d with
      | Some x => ok x
      | None => raise KeyError
      end
  | PDict _, IInt _ => raise KeyError
  | PList l, IInt i =>
      match seq_index l i with
      | Some x => ok x
      | None => raise IndexError
      end
  | PList _, IStr _ => raise TypeError
  | PStr s, IInt i =>
      match seq_index (list_ascii_of_string s) i with
      | Some c => ok (PStr (String c EmptyString))
      | None => raise IndexError
      end
  | PStr _, IStr _ => raise TypeError
  | _, _ => raise TypeError
  end.

(** ** Floats: binary64 *)

Definition prec : Z := 53.
Definition emax : Z := 1024.

Definition fmul : spec_float -> spec_float -> spec_float := SFmul prec emax.

(** [float(n)] for an int: nearest binary64, ties to even; Python raises
    OverflowError where the rounded value is out of range. *)
Definition float_of_int (n : Z) : result spec_float :=
  match binary_normalize prec emax n 0 false with
  | S754_infinity _ => raise OverflowError
  | f => ok f
  end.

(** The exact value of a finite float, as a rational. *)
Definition float_value (f : spec_float) : Q :=
  match f with
  | S754_finite s m (Zneg p) => Qmake (cond_Zopp s (Zpos m)) (Pos.pow 2 p)
  | S754_finite s m e => inject_Z (cond_Zopp s (Zpos m * 2 ^ e))
  | _ => 0%Q
  end.

(** [int(f)] for a float: truncation toward zero. *)
Definition int_of_float (f : spec_float) : result Z :=
  match f with
  | S754_zero _ => ok 0
  | S754_nan => raise ValueError
  | S754_infinity _ => raise OverflowError
  | S754_finite s m (Zneg p) => ok (cond_Zopp s (Zpos m / 2 ^ Zpos p))
  | S754_finite s m e => ok (cond_Zopp s (Zpos m * 2 ^ e))
  end.

(** *** The format specification [.{p}f] *)

Definition digits_of (n : Z) : string := NilZero.string_of_int (Z.to_int n).

Fixpoint string_repeat (s : string) (n : nat) : string :=
  match n with
  | O => ""
  | S n' => s ++ string_repeat s n'
  end.

Definition zero_pad (width : nat) (s : string) : string :=
  string_repeat "0" (width - String.length s) ++ s.

(** [m * 2^e * 10^p] rounded to the nearest integer, ties to even. *)
Definition scaled_round (p : nat) (m : positive) (e : Z) : Z :=
  let num := Zpos m * 10 ^ Z.of_nat p in
  match e with
  | Zneg k =>
      let den := 2 ^ Zpos k in
      let q := num / den in
      let r := num mod den in
      match 2 * r ?= den with
      | Lt => q
      | Gt => q + 1
      | Eq => if Z.even q then q else q + 1
      end
  | _ => num * 2 ^ e
  end.

Definition format_fixed (p : nat) (f : spec_float) : string :=
  match f with
  | S754_nan => "nan"
  | S754_infinity s => if s then "-inf" else "inf"
  | S754_zero s =>
      (if s then "-" else "") ++ "0" ++
      (if Nat.eqb p 0 then "" else "." ++ string_repeat "0" p)
  | S754_finite s m e =>
      let n := scaled_round p m e in
      let scale := 10 ^ Z.of_nat p in
      (if s then "-" else "") ++ digits_of (n / scale) ++
      (if Nat.eqb p 0 then "" else "." ++ zero_pad p (digits_of (n mod scale)))
  end.

(** [format(v, '.2f')], what [{v:.2f}] in an f-string calls. *)
Definition format_2f (v : pyval) : result string :=
  match v with
  | PFloat f => ok (format_fixed 2 f)
  | PInt n => (let? f := float_of_int n in ok (format_fixed 2 f))%result
  | PBool b => (let? f := float_of_int (if b then 1 else 0) in ok (format_fixed 2 f))%result
  | PStr _ => raise ValueError
  | PNone | PList _ | PDict _ => raise TypeError
  end.

(** ** Arithmetic used by the cells *)

(** [v * k] for an int literal [k]. *)
Definition mul_int (v : pyval) (k : Z) : result pyval :=
  match v with
  | PInt n => ok (PInt (n * k))
  | PBool b => ok (PInt ((if b then 1 else 0) * k))
  | PFloat f => (let? fk := float_of_int k in ok (PFloat (fmul f fk)))%result
  | PStr s => ok (PStr (string_repeat s (Z.to_nat k)))
  | PList l => ok (PList (List.concat (repeat l (Z.to_nat k))))
  | PNone | PDict _ => raise TypeError
  end.

(** [int(v)].  The conversion of text to an integer is the builtin's own
    business and is taken as given. *)
Section Builtins.
Variable int_of_str : string -> option Z.

Definition py_int (v : pyval) : result Z :=
  match v with
  | PInt n => ok n
  | PBool b => ok (if b then 1 else 0)
  | PFloat f => int_of_float f
  | PStr s =>
      match int_of_str s with
      | Some n => ok n
      | None => raise ValueError
      end
  | PNone | PList _ | PDict _ => raise TypeError
  end.
End Builtins.

(** ** What a cell prints *)

(** A printed line is the concatenation of its pieces.  [Str v] stands for
    [str(v)] and [Stripped s] for [s.strip()]. *)
Inductive piece : Type :=
| Text (s : string)
| Str (v : pyval)
| Stripped (s : string).

Definition line : Type := list piece.

(** ** The objects of the SageMaker SDK that the cells handle *)

Module sagemaker.

Record HuggingFaceModel : Type := {
  role : string;
  image_uri : string;
  env : list (string * pyval);
  _is_compiled_model : bool
}.

(** The keyword arguments of [HuggingFaceModel.deploy]. *)
Record deploy_args : Type := {
  initial_instance_count : Z;
  instance_type : string;
  container_startup_health_check_timeout : Z;
  volume_size : Z
}.

Record Predictor : Type := { endpoint_name : string }.

End sagemaker.

Abbreviation HuggingFaceModel := sagemaker.HuggingFaceModel.
Abbreviation deploy_args := sagemaker.deploy_args.
Abbreviation Predictor := sagemaker.Predictor.
Abbreviation endpoint_name := sagemaker.endpoint_name.

(** [HuggingFaceModel(role=..., image_uri=..., env=...)]: the constructor
    keeps its arguments; the cells hand it the dict as it is. *)
Definition new_HuggingFaceModel (role image_uri : string)
    (env : list (string * pyval)) : HuggingFaceModel :=
  {| sagemaker.role := role; sagemaker.image_uri := image_uri;
     sagemaker.env := env; sagemaker._is_compiled_model := false |}.

(** [m._is_compiled_model = b] *)
Definition set_is_compiled_model (m : HuggingFaceModel) (b : bool) : HuggingFaceModel :=
  {| sagemaker.role := sagemaker.role m;
     sagemaker.image_uri := sagemaker.image_uri m;
     sagemaker.env := sagemaker.env m;
     sagemaker._is_compiled_model := b |}.

(** ** Cells as programs over calls to the outside world *)

(** The calls a cell makes, indexed by the type of what they return. *)
Inductive op : Type -> Type :=
| HfFolder_get_token : op (option string)
| Deploy (m : HuggingFaceModel) (a : deploy_args) : op Predictor
| Predict (p : Predictor) (data : pyval) : op pyval
| Delete_model (p : Predictor) : op unit
| Delete_endpoint (p : Predictor) : op unit
| Create_gradio_app (endpoint system_prompt : string)
    (concurrency_count : Z) (share : bool) : op unit
| Shell (command : string) : op unit
| Glob (pathname : string) : op (list string)
| Load_json (path : string) : op pyval.

Inductive cell (A : Type) : Type :=
| Ret (a : A)
| Raise (e : exn)
| Print (l : line) (k : cell A)
| Call (X : Type) (o : op X) (k : X -> cell A).

Arguments Ret {A} a.
Arguments Raise {A} e.
Arguments Print {A} l k.
Arguments Call {A X} o k.

Fixpoint bind {A B} (c : cell A) (f : A -> cell B) : cell B :=
  match c with
  | Ret a => f a
  | Raise e => Raise e
  | Print l k => Print l (bind k f)
  | Call o k => Call o (fun x => bind (k x) f)
  end.

Definition call {X} (o : op X) : cell X := Call o Ret.
Definition print (l : line) : cell unit := Print l (Ret tt).
Definition lift {A} (r : result A) : cell A :=
  match r with
  | inl e => Raise e
  | inr a => Ret a
  end.

Declare Scope cell_scope.
Delimit Scope cell_scope with cell.
Notation "x <- c ;; k" := (bind c (fun x => k))
  (at level 61, c at next level, right associativity) : cell_scope.
Notation "c ;; k" := (bind c (fun _ => k))
  (at level 61, right associativity) : cell_scope.

(** *** Running a cell *)

(** A world answers each call with a value or an exception and moves to
    its next state.  Any call may be answered with an exception; a world
    in which some never are (IPython's [!] commands do not raise) is one
    of them. *)
Definition world (St : Type) : Type :=
  forall X, op X -> St -> result X * St.

Definition event : Type := { X : Type & op X }.
Definition Event {X} (o : op X) : event := existT op X o.

Record outcome (St A : Type) : Type := {
  returned : result A;
  final : St;
  stdout : list line;
  calls : list event
}.

Arguments returned {St A} o.
Arguments final {St A} o.
Arguments stdout {St A} o.
Arguments calls {St A} o.

(** An exception ends the run; what was printed before it stays printed. *)
Fixpoint run {St A} (w : world St) (c : cell A) (s : St) : outcome St A :=
  match c with
  | Ret a => {| returned := ok a; final := s; stdout := []; calls := [] |}
  | Raise e => {| returned := raise e; final := s; stdout := []; calls := [] |}
  | Print l k =>
      let o := run w k s in
      {| returned := returned o; final := final o;
         stdout := l :: stdout o; calls := calls o |}
  | Call o k =>
      match w _ o s with
      | (inl e, s') =>
          {| returned := raise e; final := s'; stdout := []; calls := [Event o] |}
      | (inr x, s') =>
          let r := run w (k x) s' in
          {| returned := returned r; final := final r;
             stdout := stdout r; calls := Event o :: calls r |}
      end
  end.

(** ** A concrete world: a results directory and a SageMaker account *)

(** An entry of the results directory.  A file is given by what
    [json.load] makes of it: the value, or the exception it raises. *)
Inductive entry : Type :=
| Directory
| File (loaded : result pyval).

(** *** [glob.glob] on one directory level *)

(** [fnmatch] with the wildcards [*] and [?]; no pattern of the notebooks
    has a bracket expression. *)
Fixpoint fnmatch (pat name : string) : bool :=
  match pat with
  | EmptyString =>
      match name with
      | EmptyString => true
      | String _ _ => false
      end
  | String c pat' =>
      if Ascii.eqb c "*" then
        (fix star (n : string) : bool :=
           fnmatch pat' n ||
           match n with
           | EmptyString => false
           | String _ n' => star n'
           end) name
      else
        match name with
        | EmptyString => false
        | String c' name' =>
            (Ascii.eqb c "?" || Ascii.eqb c c') && fnmatch pat' name'
        end
  end.

(** A pattern without wildcards. *)
Fixpoint literal (pat : string) : bool :=
  match pat with
  | EmptyString => true
  | String c pat' => negb (Ascii.eqb c "*") && negb (Ascii.eqb c "?") && literal pat'
  end.

Definition hidden (name : string) : bool :=
  match name with
  | String "." _ => true
  | _ => false
  end.

(** The names of a directory that a pattern selects, in listing order:
    a leading dot is only matched by a pattern that has one. *)
Definition glob1 (names : list string) (pattern : string) : list string :=
  filter (fun n => (hidden pattern || negb (hidden n)) && fnmatch pattern n) names.

Fixpoint strip_prefix (p s : string) : option string :=
  match p with
  | EmptyString => Some s
  | String c p' =>
      match s with
      | EmptyString => None
      | String c' s' => if Ascii.eqb c c' then strip_prefix p' s' else None
      end
  end.

Definition results_dir : string := "results/".

Definition sim_glob (listing : list (string * entry)) (pathname : string) : list string :=
  match strip_prefix results_dir pathname with
  | Some pattern => map (append results_dir) (glob1 (map fst listing) pattern)
  | None => []
  end.

(** [with open(path, 'r') as file: json.load(file)] *)
Definition sim_load_json (listing : list (string * entry)) (path : string) : result pyval :=
  match strip_prefix results_dir path with
  | Some name =>
      match dict_get name listing with
      | Some (File loaded) => loaded
      | Some Directory => raise IsADirectoryError
      | None => raise FileNotFoundError
      end
  | None => raise FileNotFoundError
  end.

(** *** The account *)

Record sim : Type := {
  results : list (string * entry);
  hf_token : option string;
  models : list string;
  endpoints : list string;
  created : nat;
  completion : pyval
}.

Definition mem (x : string) (l : list string) : bool := existsb (String.eqb x) l.
Definition remove (x : string) (l : list string) : list string :=
  filter (fun y => negb (String.eqb x y)) l.

Definition with_account (s : sim) (ms es : list string) (n : nat) : sim :=
  {| results := results s; hf_token := hf_token s; models := ms;
     endpoints := es; created := n; completion := completion s |}.

(** SageMaker answers a request on a model or endpoint that does not exist
    with a client error; the shell commands and the demo application leave
    the account as it is.  The sample account labels all three failures
    [ClientError], also where the SDK wraps the error in an exception of
    its own class before it reaches the cell, as for a model that cannot be
    deleted; the statements on every world range over every exception. *)
Definition sim_world : world sim :=
  fun X o =>
    match o in op X return sim -> result X * sim with
    | HfFolder_get_token => fun s => (ok (hf_token s), s)
    | Deploy m a => fun s =>
        let name := "endpoint-" ++ digits_of (Z.of_nat (created s)) in
        (ok {| sagemaker.endpoint_name := name |},
         with_account s (name :: models s) (name :: endpoints s) (S (created s)))
    | Predict p data => fun s =>
        if mem (endpoint_name p) (endpoints s)
        then (ok (completion s), s)
        else (raise ClientError, s)
    | Delete_model p => fun s =>
        if mem (endpoint_name p) (models s)
        then (ok tt, with_account s (remove (endpoint_name p) (models s))
                       (endpoints s) (created s))
        else (raise ClientError, s)
    | Delete_endpoint p => fun s =>
        if mem (endpoint_name p) (endpoints s)
        then (ok tt, with_account s (models s)
                       (remove (endpoint_name p) (endpoints s)) (created s))
        else (raise ClientError, s)
    | Create_gradio_app _ _ _ _ => fun s => (ok tt, s)
    | Shell _ => fun s => (ok tt, s)
    | Glob pathname => fun s => (ok (sim_glob (results s) pathname), s)
    | Load_json path => fun s => (sim_load_json (results s) path, s)
    end.

(** A fresh account next to a given results directory. *)
Definition with_results (listing : list (string * entry)) : sim :=
  {| results := listing; hf_token := None; models := []; endpoints := [];
     created := O; completion := PNone |}.

(** ** What the two notebooks share *)

Coercion IStr : string >-> index.
Coercion IInt : Z >-> index.

Definition dquote : string := String (ascii_of_nat 34) EmptyString.

Definition str_or_None (o : option string) : pyval :=
  match o with
  | Some s => PStr s
  | None => PNone
  end.

(** [v.strip()]: only a [str] has the method. *)
Definition strip (v : pyval) : result piece :=
  match v with
  | PStr s => ok (Stripped s)
  | _ => raise AttributeError
  end.

(** [chat["choices"][0]["message"]["content"]] *)
Definition chat_content (chat : pyval) : result pyval :=
  (let? choices := getitem chat "choices" in
   let? choice := getitem choices 0 in
   let? message := getitem choice "message" in
   getitem message "content")%result.

(** [print(chat["choices"][0]["message"]["content"].strip())] *)
Definition print_chat (chat : pyval) : cell unit :=
  (text <- lift (let? content := chat_content chat in strip content)%result ;;
   print [text])%cell.

(** [with open(glob.glob(f'results/*summary.json')[0], 'r') as file:
       data = json.load(file)] *)
Definition load_summary : cell pyval :=
  (paths <- call (Glob "results/*summary.json") ;;
   path <- lift (match seq_index paths 0 with
                 | Some p => ok p
                 | None => raise IndexError
                 end) ;;
   call (Load_json path))%cell.

(** [{data[key]*1000:.2f}] *)
Definition milli_2f (data : pyval) (key : string) : result string :=
  (let? v := getitem data key in
   let? ms := mul_int v 1000 in
   format_2f ms)%result.

(** [{data[key]:.2f}] *)
Definition field_2f (data : pyval) (key : string) : result string :=
  (let? v := getitem data key in format_2f v)%result.

(** [llm.delete_model(); llm.delete_endpoint()] *)
Definition clean_up (llm : Predictor) : cell unit :=
  (call (Delete_model llm) ;;
   call (Delete_endpoint llm))%cell.

(** [!git clone ...] and [!pip install -e llmperf/] *)
Definition install_llmperf : cell unit :=
  (call (Shell "git clone https://github.com/philschmid/llmperf.git") ;;
   call (Shell "pip install -e llmperf/"))%cell.

Definition token_benchmark (llm : Predictor) (max_requests : string) : cell unit :=
  call (Shell ("MESSAGES_API=true python llmperf/token_benchmark_ray.py" ++
               " --model " ++ endpoint_name llm ++
               " --llm-api " ++ dquote ++ "sagemaker" ++ dquote ++
               " --max-num-completed-requests " ++ max_requests ++
               " --timeout 600" ++
               " --num-concurrent-requests 5" ++
               " --results-dir " ++ dquote ++ "results" ++ dquote)).

(** ** The Llama 3 70B notebook *)

Module Llama3.

Definition instance_type : string := "ml.inf2.48xlarge".
Definition health_check_timeout : Z := 2400.
Definition volume_size : Z := 512.

(** The endpoint configuration; [token] is what [HfFolder.get_token()]
    returned. *)
Definition config (token : option string) : list (string * pyval) :=
  py_dict
    [ ("HF_MODEL_ID", PStr "meta-llama/Meta-Llama-3-70B-Instruct");
      ("HF_NUM_CORES", PStr "24");
      ("HF_BATCH_SIZE", PStr "4");
      ("HF_SEQUENCE_LENGTH", PStr "4096");
      ("HF_AUTO_CAST_TYPE", PStr "fp16");
      ("MAX_BATCH_SIZE", PStr "4");
      ("MAX_INPUT_LENGTH", PStr "4000");
      ("MAX_TOTAL_TOKENS", PStr "4096");
      ("MESSAGES_API_ENABLED", PStr "true");
      ("HF_TOKEN", str_or_None token) ].

Definition create_model (role llm_image : string) : cell HuggingFaceModel :=
  (token <- call HfFolder_get_token ;;
   Ret (new_HuggingFaceModel role llm_image (config token)))%cell.

Definition deploy (llm_model : HuggingFaceModel) : cell Predictor :=
  let llm_model := set_is_compiled_model llm_model true in
  call (Deploy llm_model
          {| sagemaker.initial_instance_count := 1;
             sagemaker.instance_type := instance_type;
             sagemaker.container_startup_health_check_timeout := health_check_timeout;
             sagemaker.volume_size := volume_size |}).

Definition messages : list pyval :=
  [ PDict (py_dict [ ("role", PStr "system");
                     ("content", PStr "You are a helpful assistant.") ]);
    PDict (py_dict [ ("role", PStr "user");
                     ("content", PStr "What is deep learning?") ]) ].

Definition parameters : list (string * pyval) :=
  py_dict
    [ ("model", PStr "meta-llama/Meta-Llama-3-70B-Instruct");
      ("top_p", flt 0.6);
      ("temperature", flt 0.9);
      ("max_tokens", PInt 50);
      ("stop", PList [PStr "<|eot_id|>"]) ].

(** [{"messages": messages, **parameters, "steam": True}] *)
Definition request_body (messages : list pyval)
    (parameters : list (string * pyval)) : pyval :=
  PDict (dict_set "steam" (PBool true)
           (dict_update (py_dict [("messages", PList messages)]) parameters)).

Definition chat (llm : Predictor) : cell unit :=
  (chat <- call (Predict llm (request_body messages parameters)) ;;
   print_chat chat)%cell.

(** [create_gradio_app(llm.endpoint_name, session=sess.boto_session,
    system_prompt=..., concurrency_count=4, share=True)], from the demo
    module; the session is the one of the set-up cells. *)
Definition demo (llm : Predictor) : cell unit :=
  call (Create_gradio_app (endpoint_name llm)
          "You are an helpful Assistant, called Llama 3. Knowing everyting about AWS."
          4 true).

Definition print_results (data : pyval) : cell unit :=
  (print [Text "Concurrent requests: 5"] ;;
   x <- lift (getitem data "mean_input_tokens") ;;
   print [Text "Avg. Input token length: "; Str x] ;;
   x <- lift (getitem data "mean_output_tokens") ;;
   print [Text "Avg. Output token length: "; Str x] ;;
   x <- lift (milli_2f data "results_ttft_s_mean") ;;
   print [Text "Avg. First-Time-To-Token: "; Text x; Text "ms"] ;;
   x <- lift (field_2f data "results_mean_output_throughput_token_per_s") ;;
   print [Text "Avg. Thorughput: "; Text x; Text " tokens/sec"] ;;
   x <- lift (milli_2f data "results_inter_token_latency_s_mean") ;;
   print [Text "Avg. Latency: "; Text x; Text "ms/token"])%cell.

Definition reader : cell unit :=
  (data <- load_summary ;; print_results data)%cell.

(** The code cells from the endpoint configuration on, run top to
    bottom; [role] and [llm_image] come from the set-up cells before
    them, which install packages, open the SageMaker session and look up
    the container image. *)
Definition notebook (role llm_image : string) : cell unit :=
  (llm_model <- create_model role llm_image ;;
   llm <- deploy llm_model ;;
   chat llm ;;
   demo llm ;;
   install_llmperf ;;
   token_benchmark llm "50" ;;
   reader ;;
   clean_up llm)%cell.

End Llama3.

(** ** The Mixtral 8x7B notebook *)

Module Mixtral.

(** The compilation cell. *)
Definition MODEL_ID : string := "NousResearch/Nous-Hermes-2-Mixtral-8x7B-DPO".
Definition SEQUENCE_LENGTH : Z := 4096.
Definition BATCH_SIZE : Z := 4.
Definition NUM_CORES : Z := 24.
Definition PRECISION : string := "fp16".
Definition HF_MODEL_ID_TO_PUSH : string :=
  "aws-neuron/hermes-mixtral-instruct-seqlen-4096-bs-4-optimum-0-0-23".
Definition HF_TOKEN : string := "YOUR_TOKEN".

Definition compile : cell unit :=
  (call (Shell ("huggingface-cli login --token " ++ HF_TOKEN)) ;;
   call (Shell ("optimum-cli export neuron -m " ++ MODEL_ID ++
                " --batch_size " ++ digits_of BATCH_SIZE ++
                " --sequence_length " ++ digits_of SEQUENCE_LENGTH ++
                " --num_cores " ++ digits_of NUM_CORES ++
                " --auto_cast_type " ++ PRECISION ++
                " ./mixtral-instruct-neuron")) ;;
   call (Shell ("huggingface-cli upload " ++ HF_MODEL_ID_TO_PUSH ++
                " ./mixtral-instruct-neuron ./")))%cell.

Definition instance_type : string := "ml.inf2.48xlarge".
Definition health_check_timeout : Z := 2400.
Definition volume_size : Z := 512.

Definition config : list (string * pyval) :=
  py_dict
    [ ("HF_MODEL_ID",
       PStr "aws-neuron/hermes-mixtral-instruct-seqlen-4096-bs-4-optimum-0-0-23");
      ("HF_NUM_CORES", PStr "24");
      ("HF_AUTO_CAST_TYPE", PStr "fp16");
      ("MAX_BATCH_SIZE", PStr "4");
      ("MAX_INPUT_LENGTH", PStr "4000");
      ("MAX_TOTAL_TOKENS", PStr "4096");
      ("MESSAGES_API_ENABLED", PStr "true") ].

Definition create_model (role llm_image : string) : cell HuggingFaceModel :=
  Ret (new_HuggingFaceModel role llm_image config).

Definition deploy (llm_model : HuggingFaceModel) : cell Predictor :=
  let llm_model := set_is_compiled_model llm_model true in
  call (Deploy llm_model
          {| sagemaker.initial_instance_count := 1;
             sagemaker.instance_type := instance_type;
             sagemaker.container_startup_health_check_timeout := health_check_timeout;
             sagemaker.volume_size := volume_size |}).

Definition messages : list pyval :=
  [ PDict (py_dict [ ("role", PStr "system");
                     ("content", PStr "You are a helpful assistant.") ]);
    PDict (py_dict [ ("role", PStr "user");
                     ("content", PStr "What is deep learning?") ]) ].

Definition parameters : list (string * pyval) :=
  py_dict
    [ ("model", PStr "aws-neuron/mixtral-instruct-seqlen-4096-bs-4-optimum-0-0-23");
      ("top_p", flt 0.6);
      ("temperature", flt 0.9);
      ("max_tokens", PInt 512) ].

(** [{"messages": messages, **parameters}] *)
Definition request_body (messages : list pyval)
    (parameters : list (string * pyval)) : pyval :=
  PDict (dict_update (py_dict [("messages", PList messages)]) parameters).

Definition chat (llm : Predictor) : cell unit :=
  (chat <- call (Predict llm (request_body messages parameters)) ;;
   print_chat chat)%cell.

Definition demo (llm : Predictor) : cell unit :=
  call (Create_gradio_app (endpoint_name llm)
          "You are an helpful Assistant, called Mixtral. Knowing everyting about AWS."
          4 true).

Section Reader.
Variable int_of_str : string -> option Z.

(** [{int(data[key])}] *)
Definition field_int (data : pyval) (key : string) : result pyval :=
  (let? v := getitem data key in
   let? n := py_int int_of_str v in
   ok (PInt n))%result.

Definition print_results (data : pyval) : cell unit :=
  (print [Text "Concurrent requests: 5"] ;;
   x <- lift (field_int data "results_number_input_tokens_mean") ;;
   print [Text "Avg. Input token length: "; Str x] ;;
   x <- lift (field_int data "results_number_output_tokens_mean") ;;
   print [Text "Avg. Output token length: "; Str x] ;;
   x <- lift (milli_2f data "results_ttft_s_mean") ;;
   print [Text "Avg. Time-to-first-Token: "; Text x; Text "ms"] ;;
   x <- lift (milli_2f data "results_inter_token_latency_s_mean") ;;
   print [Text "Avg. Inter-Token-Latency: "; Text x; Text "ms/token"] ;;
   x <- lift (field_2f data "results_mean_output_throughput_token_per_s") ;;
   print [Text "Avg. Thorughput: "; Text x; Text " tokens/sec"] ;;
   x <- lift (field_2f data "results_num_completed_requests_per_min") ;;
   print [Text "Request per minute (RPM): "; Text x; Text " req/min"])%cell.

Definition reader : cell unit :=
  (data <- load_summary ;; print_results data)%cell.

Definition notebook (role llm_image : string) : cell unit :=
  (compile ;;
   llm_model <- create_model role llm_image ;;
   llm <- deploy llm_model ;;
   chat llm ;;
   demo llm ;;
   install_llmperf ;;
   token_benchmark llm "100" ;;
   reader ;;
   clean_up llm)%cell.
End Reader.

End Mixtral.

(** ** Sample data *)

(** The summary of the Llama 3 run quoted in the notebook. *)
Definition summary_550_150 : pyval :=
  PDict (py_dict
    [ ("mean_input_tokens", PInt 550);
      ("mean_output_tokens", PInt 150);
      ("results_ttft_s_mean", flt 5.50533);
      ("results_mean_output_throughput_token_per_s", flt 132.8);
      ("results_inter_token_latency_s_mean", flt 0.02346) ]).

Definition summary_of_earlier_run : pyval :=
  PDict (py_dict
    [ ("mean_input_tokens", PInt 550);
      ("mean_output_tokens", PInt 150);
      ("results_ttft_s_mean", flt 1.25);
      ("results_mean_output_throughput_token_per_s", flt 90.5);
      ("results_inter_token_latency_s_mean", flt 0.04) ]).

Definition results_of_one_run : list (string * entry) :=
  [ ("endpoint-0_550_150_individual_responses.json", File (ok (PList [])));
    ("endpoint-0_550_150_summary.json", File (ok summary_550_150)) ].

Definition results_of_two_runs : list (string * entry) :=
  [ ("endpoint-0_550_150_summary.json", File (ok summary_550_150));
    ("endpoint-0_550_150_individual_responses.json", File (ok (PList [])));
    ("endpoint-1_550_150_summary.json", File (ok summary_of_earlier_run)) ].

(** A summary as the Mixtral reader expects it, with fractional means. *)
Definition summary_mixtral : pyval :=
  PDict (py_dict
    [ ("results_number_input_tokens_mean", flt 562.94);
      ("results_number_output_tokens_mean", flt 676.5);
      ("results_ttft_s_mean", flt 2.43547);
      ("results_inter_token_latency_s_mean", flt 0.01067);
      ("results_mean_output_throughput_token_per_s", flt 288.0);
      ("results_num_completed_requests_per_min", flt 25.54) ]).

Definition results_of_mixtral_run : list (string * entry) :=
  [ ("endpoint-0_550_150_summary.json", File (ok summary_mixtral)) ].

(** ** Vocabulary of the statements *)

Definition finite (f : spec_float) : bool :=
  match f with
  | S754_zero _ | S754_finite _ _ _ => true
  | S754_infinity _ | S754_nan => false
  end.

Definition integral (q : Q) : Prop := exists k : Z, (q == inject_Z k)%Q.

(** [n] is [q] rounded toward zero. *)
Definition truncation (n : Z) (q : Q) : Prop :=
  ((0 <= q -> inject_Z n <= q /\ q < inject_Z n + 1) /\
   (q <= 0 -> inject_Z n - 1 < q /\ q <= inject_Z n))%Q.

(** The handle an event deletes, if it is a deletion. *)
Definition deleted_handle (e : event) : option string :=
  match e with
  | existT _ _ (Delete_model p) => Some (endpoint_name p)
  | existT _ _ (Delete_endpoint p) => Some (endpoint_name p)
  | _ => None
  end.

Definition is_predict_on (name : string) (e : event) : bool :=
  match e with
  | existT _ _ (Predict p _) => String.eqb name (endpoint_name p)
  | _ => false
  end.

(** No inference call on a handle comes after a deletion call on it. *)
Fixpoint no_predict_after_delete (log : list event) : bool :=
  match log with
  | [] => true
  | e :: log' =>
      match deleted_handle e with
      | Some name => negb (existsb (is_predict_on name) log')
      | None => true
      end && no_predict_after_delete log'
  end.

(** The environment maps of the deploy calls of a run. *)
Fixpoint deploy_envs (log : list event) : list (list (string * pyval)) :=
  match log with
  | [] => []
  | existT _ _ (Deploy m _) :: log' => sagemaker.env m :: deploy_envs log'
  | _ :: log' => deploy_envs log'
  end.

Definition is_str (v : pyval) : bool :=
  match v with
  | PStr _ => true
  | _ => false
  end.

Definition all_str (d : list (string * pyval)) : bool := forallb is_str (dict_values d).

Definition is_deletion (e : event) : bool :=
  match deleted_handle e with
  | Some _ => true
  | None => false
  end.

Definition is_predict (e : event) : bool :=
  match e with
  | existT _ _ (Predict _ _) => true
  | _ => false
  end.

Definition is_deploy (e : event) : bool :=
  match e with
  | existT _ _ (Deploy _ _) => true
  | _ => false
  end.

(** A cell that makes no call of kind [p], whatever the world answers. *)
Definition avoids {A} (p : event -> bool) (c : cell A) : Prop :=
  forall St (w : world St) (s : St), existsb p (calls (run w c s)) = false.

Definition ordered {A} (c : cell A) : Prop :=
  forall St (w : world St) (s : St),
    no_predict_after_delete (calls (run w c s)) = true.

(** *** The request schema *)

Definition required_fields : list string :=
  ["messages"; "model"; "top_p"; "temperature"; "max_tokens"].
Definition optional_fields : list string := ["stop"].

Definition body_keys (body : pyval) : list string :=
  match body with
  | PDict d => dict_keys d
  | _ => []
  end.

(** The keys of a body are the required ones, [stop] or not, and no other. *)
Definition conforms (body : pyval) : bool :=
  forallb (fun k => mem k (required_fields ++ optional_fields)) (body_keys body) &&
  forallb (fun k => mem k (body_keys body)) required_fields.

(** *** Consistency of an endpoint configuration *)

(** A decimal value of the environment map. *)
Definition env_int (cfg : list (string * pyval)) (key : string) : option Z :=
  match dict_get key cfg with
  | Some (PStr s) => option_map Z.of_uint (NilZero.uint_of_string s)
  | _ => None
  end.

(** MAX_TOTAL_TOKENS is the compiled sequence length, MAX_INPUT_LENGTH is
    below MAX_TOTAL_TOKENS, MAX_BATCH_SIZE is the compiled batch size. *)
Definition consistent (sequence_length batch_size : option Z)
    (cfg : list (string * pyval)) : bool :=
  match env_int cfg "MAX_TOTAL_TOKENS", env_int cfg "MAX_INPUT_LENGTH",
        env_int cfg "MAX_BATCH_SIZE", sequence_length, batch_size with
  | Some total, Some input, Some batch, Some compiled_length, Some compiled_batch =>
      (total =? compiled_length) && (input <? total) && (batch =? compiled_batch)
  | _, _, _, _, _ => false
  end.

(** A configuration whose input limit exceeds the compiled length. *)
Definition oversized_config : list (string * pyval) :=
  dict_set "MAX_INPUT_LENGTH" (PStr "8192") (Llama3.config (Some "hf_token")).

(** *** Cleaning up twice *)

Definition deploy_and_clean_up_twice : cell unit :=
  (llm_model <- Mixtral.create_model "role" "image" ;;
   llm <- Mixtral.deploy llm_model ;;
   clean_up llm ;;
   clean_up llm)%cell.

(** *** Calling the endpoint after the clean-up *)

Definition predict_after_clean_up : cell pyval :=
  (llm_model <- Mixtral.create_model "role" "image" ;;
   llm <- Mixtral.deploy llm_model ;;
   clean_up llm ;;
   call (Predict llm (Mixtral.request_body Mixtral.messages Mixtral.parameters)))%cell.

(** ** More vocabulary *)

(** The first line either reader prints. *)
Definition header : line := [Text "Concurrent requests: 5"].

Definition is_dict (v : pyval) : bool :=
  match v with
  | PDict _ => true
  | _ => false
  end.

(** The lines the Llama 3 reader prints for token fields [x], [y] and float
    figures [ttft], [itl] (seconds) and [thr]. *)
Definition llama3_report (x y : pyval) (ttft thr itl : spec_float) : list line :=
  [ header;
    [Text "Avg. Input token length: "; Str x];
    [Text "Avg. Output token length: "; Str y];
    [Text "Avg. First-Time-To-Token: ";
     Text (format_fixed 2 (fmul ttft (Prim2SF 1000))); Text "ms"];
    [Text "Avg. Thorughput: "; Text (format_fixed 2 thr); Text " tokens/sec"];
    [Text "Avg. Latency: ";
     Text (format_fixed 2 (fmul itl (Prim2SF 1000))); Text "ms/token"] ].

(** The endpoint an event names, if it names one. *)
Definition handle_of (e : event) : option string :=
  match e with
  | existT _ _ (Predict p _) => Some (endpoint_name p)
  | existT _ _ (Delete_model p) => Some (endpoint_name p)
  | existT _ _ (Delete_endpoint p) => Some (endpoint_name p)
  | existT _ _ (Create_gradio_app endpoint _ _ _) => Some endpoint
  | _ => None
  end.

Fixpoint handles (log : list event) : list string :=
  match log with
  | [] => []
  | e :: log' =>
      match handle_of e with
      | Some name => name :: handles log'
      | None => handles log'
      end
  end.

Definition names_other (name : string) (e : event) : bool :=
  match handle_of e with
  | Some name' => negb (String.eqb name name')
  | None => false
  end.

(** A cell that has printed [n] lines whenever it returns normally. *)
Definition prints {A} (n : nat) (c : cell A) : Prop :=
  forall St (w : world St) (s : St),
    (exists a, returned (run w c s) = ok a) -> List.length (stdout (run w c s)) = n.

(** A cell that has printed [n] lines whenever it makes a deletion call. *)
Definition deletes_after {A} (n : nat) (c : cell A) : Prop :=
  forall St (w : world St) (s : St),
    existsb is_deletion (calls (run w c s)) = true ->
    List.length (stdout (run w c s)) = n.

(** ** The set-up cells *)

(** The first code cells install packages, open the SageMaker session,
    find the execution role and look up the container image.  They have
    a [try]/[except], so their programs carry, with every call, what to
    do with an exception of that call. *)

Record Session : Type := { boto_region_name : string }.
Record Client : Type := { service_name : string }.

Inductive setup_op : Type -> Type :=
| Bang (command : string) : setup_op unit
| Session_new (default_bucket : option string) : setup_op Session
| Default_bucket (sess : Session) : setup_op string
| Get_execution_role : setup_op string
| Boto3_client (service : string) : setup_op Client
| Get_role (iam : Client) (RoleName : string) : setup_op pyval
| Get_huggingface_llm_image_uri (backend version : string) : setup_op string.

Inductive script (A : Type) : Type :=
| Done (a : A)
| Fail (e : exn)
| Say (l : line) (k : script A)
| Ask (X : Type) (o : setup_op X) (k : X -> script A) (except : exn -> script A).

Arguments Done {A} a.
Arguments Fail {A} e.
Arguments Say {A} l k.
Arguments Ask {A X} o k except.

Fixpoint andthen {A B} (c : script A) (f : A -> script B) : script B :=
  match c with
  | Done a => f a
  | Fail e => Fail e
  | Say l k => Say l (andthen k f)
  | Ask o k except => Ask o (fun x => andthen (k x) f) (fun e => andthen (except e) f)
  end.

Definition ask {X} (o : setup_op X) : script X := Ask o Done Fail.
Definition say (l : line) : script unit := Say l (Done tt).
Definition attempt {A} (r : result A) : script A :=
  match r with
  | inl e => Fail e
  | inr a => Done a
  end.

(** [try: c except ...: handler]: an exception of [c] that the handler
    takes goes to it; what the handler raises is not caught again. *)
Fixpoint catch {A} (c : script A) (handler : exn -> option (script A)) : script A :=
  match c with
  | Done a => Done a
  | Fail e =>
      match handler e with
      | Some c' => c'
      | None => Fail e
      end
  | Say l k => Say l (catch k handler)
  | Ask o k except =>
      Ask o (fun x => catch (k x) handler) (fun e => catch (except e) handler)
  end.

Declare Scope script_scope.
Delimit Scope script_scope with script.
Notation "x <- c ;; k" := (andthen c (fun x => k))
  (at level 61, c at next level, right associativity) : script_scope.
Notation "c ;; k" := (andthen c (fun _ => k))
  (at level 61, right associativity) : script_scope.

(** The exceptions that [except ValueError] takes: ValueError and its
    subclasses. *)
Definition is_ValueError (e : exn) : bool :=
  match e with
  | ValueError | JSONDecodeError => true
  | _ => false
  end.

Definition setup_world (St : Type) : Type :=
  forall X, setup_op X -> St -> result X * St.

(** A call together with the answer it got. *)
Inductive answered : Type :=
| Answered (X : Type) (o : setup_op X) (a : result X).

Arguments Answered {X} o a.

Record trace (St A : Type) : Type := {
  ended : result A;
  left_in : St;
  said : list line;
  asked : list answered
}.

Arguments ended {St A} t.
Arguments left_in {St A} t.
Arguments said {St A} t.
Arguments asked {St A} t.

Fixpoint play {St A} (w : setup_world St) (c : script A) (s : St) : trace St A :=
  match c with
  | Done a => {| ended := ok a; left_in := s; said := []; asked := [] |}
  | Fail e => {| ended := raise e; left_in := s; said := []; asked := [] |}
  | Say l k =>
      let t := play w k s in
      {| ended := ended t; left_in := left_in t;
         said := l :: said t; asked := asked t |}
  | Ask o k except =>
      let (answer, s') := w _ o s in
      let t := match answer with
               | inl e => play w (except e) s'
               | inr x => play w (k x) s'
               end in
      {| ended := ended t; left_in := left_in t;
         said := said t; asked := Answered o answer :: asked t |}
  end.

(** [!pip install "sagemaker>=..." "gradio<4" transformers --upgrade --quiet] *)
Definition pip_install (sagemaker_version : string) : script unit :=
  ask (Bang ("pip install " ++ dquote ++ "sagemaker>=" ++ sagemaker_version ++ dquote ++
             " " ++ dquote ++ "gradio<4" ++ dquote ++
             " transformers --upgrade --quiet")).

(** The session cell, the same in both notebooks.  The role is a value:
    a [str] from the SDK, or whatever the IAM answer holds under
    [['Role']['Arn']]. *)
Definition session_cell : script (pyval * Session) :=
  (sess <- ask (Session_new None) ;;
   let sagemaker_session_bucket : option string := None in
   sagemaker_session_bucket <-
     match sagemaker_session_bucket with  (* [sess] is an object, never None *)
     | None => (b <- ask (Default_bucket sess) ;; Done (Some b))
     | Some b => Done (Some b)
     end ;;
   role <- catch (r <- ask Get_execution_role ;; Done (PStr r))
             (fun e =>
                if is_ValueError e then
                  Some (iam <- ask (Boto3_client "iam") ;;
                        answer <- ask (Get_role iam "sagemaker_execution_role") ;;
                        attempt (let? r := getitem answer "Role" in
                                 getitem r "Arn")%result)
                else None) ;;
   sess <- ask (Session_new sagemaker_session_bucket) ;;
   say [Text "sagemaker role arn: "; Str role] ;;
   say [Text "sagemaker session region: "; Text (boto_region_name sess)] ;;
   Done (role, sess))%script.

(** [llm_image = get_huggingface_llm_image_uri("huggingface-neuronx",
    version=...)] and the line that shows it. *)
Definition image_cell (version : string) : script string :=
  (llm_image <- ask (Get_huggingface_llm_image_uri "huggingface-neuronx" version) ;;
   say [Text "llm image uri: "; Text llm_image] ;;
   Done llm_image)%script.

(** The set-up of a notebook: Llama 3 asks for sagemaker 2.199.0 and
    image version 0.0.22, Mixtral for 2.223.0 and 0.0.23. *)
Definition set_up (sagemaker_version image_version : string)
    : script (pyval * Session * string) :=
  (pip_install sagemaker_version ;;
   rs <- session_cell ;;
   llm_image <- image_cell image_version ;;
   Done (rs, llm_image))%script.

Definition llama3_set_up : script (pyval * Session * string) := set_up "2.199.0" "0.0.22".
Definition mixtral_set_up : script (pyval * Session * string) := set_up "2.223.0" "0.0.23".

(** *** A sample machine *)

(** What the machine answers: its default bucket, the execution role the
    SDK finds (or the exception it raises), the answer of IAM, and the
    region of its sessions. *)
Record machine : Type := {
  bucket : result string;
  execution_role : result string;
  iam_answer : result pyval;
  region : string
}.

Definition machine_world : setup_world machine :=
  fun X o =>
    match o in setup_op X return machine -> result X * machine with
    | Bang _ => fun s => (ok tt, s)
    | Session_new _ => fun s => (ok {| boto_region_name := region s |}, s)
    | Default_bucket _ => fun s => (bucket s, s)
    | Get_execution_role => fun s => (execution_role s, s)
    | Boto3_client service => fun s => (ok {| service_name := service |}, s)
    | Get_role _ _ => fun s => (iam_answer s, s)
    | Get_huggingface_llm_image_uri backend version => fun s =>
        (ok ("763104351884.dkr.ecr." ++ region s ++ ".amazonaws.com/" ++
             backend ++ ":" ++ version), s)
    end.

(** A laptop: the SDK finds no execution role, IAM knows the role. *)
Definition laptop : machine :=
  {| bucket := ok "sagemaker-us-east-1-123456789012";
     execution_role := raise ValueError;
     iam_answer :=
       ok (PDict [("Role",
                   PDict [("RoleName", PStr "sagemaker_execution_role");
                          ("Arn", PStr "arn:aws:iam::123456789012:role/sagemaker_execution_role")])]);
     region := "us-east-1" |}.

(** A SageMaker notebook instance: the SDK finds the role. *)
Definition studio : machine :=
  {| bucket := ok "sagemaker-us-east-1-123456789012";
     execution_role := ok "arn:aws:iam::123456789012:role/service-role/studio";
     iam_answer := raise ClientError;
     region := "us-east-1" |}.

(** A machine without credentials: looking for the role fails with a
    client error. *)
Definition no_credentials : machine :=
  {| bucket := ok "sagemaker-us-east-1-123456789012";
     execution_role := raise ClientError;
     iam_answer := raise ClientError;
     region := "us-east-1" |}.

(** *** Reading the log of the session cell *)

(** The exception that an entry records for [get_execution_role]. *)
Definition role_error (en : answered) : option exn :=
  match en with
  | Answered o a =>
      match o in setup_op X return result X -> option exn with
      | Get_execution_role => fun a => match a with
                                       | inl e => Some e
                                       | inr _ => None
                                       end
      | _ => fun _ => None
      end a
  end.

(** The role that an entry records for [get_execution_role]. *)
Definition role_found (en : answered) : option string :=
  match en with
  | Answered o a =>
      match o in setup_op X return result X -> option string with
      | Get_execution_role => fun a => match a with
                                       | inl _ => None
                                       | inr r => Some r
                                       end
      | _ => fun _ => None
      end a
  end.

(** An entry of a call to IAM: the client or its [get_role]. *)
Definition is_iam (en : answered) : bool :=
  match en with
  | Answered (Boto3_client _) _ => true
  | Answered (Get_role _ _) _ => true
  | _ => false
  end.

(** The bucket that an entry records as the answer of [default_bucket]. *)
Definition bucket_found (en : answered) : option string :=
  match en with
  | Answered o a =>
      match o in setup_op X return result X -> option string with
      | Default_bucket _ => fun a => match a with
                                     | inl _ => None
                                     | inr b => Some b
                                     end
      | _ => fun _ => None
      end a
  end.

(** The bucket an entry opens a session on, if it opens one on a bucket. *)
Definition session_bucket (en : answered) : option string :=
  match en with
  | Answered (Session_new (Some b)) _ => Some b
  | _ => None
  end.

(** The answer that an entry records for IAM's [get_role]. *)
Definition iam_found (en : answered) : option pyval :=
  match en with
  | Answered o a =>
      match o in setup_op X return result X -> option pyval with
      | Get_role _ _ => fun a => match a with
                                 | inl _ => None
                                 | inr v => Some v
                                 end
      | _ => fun _ => None
      end a
  end.

Fixpoint pick {A B} (f : A -> option B) (l : list A) : list B :=
  match l with
  | [] => []
  | x :: l' =>
      match f x with
      | Some y => y :: pick f l'
      | None => pick f l'
      end
  end.

(** *** An account whose model is gone and whose endpoint is not *)

Definition endpoint_without_model : sim :=
  {| results := []; hf_token := None; models := []; endpoints := ["endpoint-0"];
     created := 1; completion := PNone |}.

(** ** Reading a printed figure *)

(** The text before the first point and, if there is a point, the text
    after it. *)
Fixpoint split_at_point (s : string) : string * option string :=
  match s with
  | EmptyString => (EmptyString, None)
  | String c rest =>
      if Ascii.eqb c "." then (EmptyString, Some rest)
      else let (whole, frac) := split_at_point rest in (String c whole, frac)
  end.

(** The number that a decimal numeral denotes: an optional minus sign,
    one digit or more, and possibly a point with the digits of the
    fraction.  Any other text denotes nothing. *)
Definition decimal_value (text : string) : option Q :=
  let (negative, body) :=
    match text with
    | EmptyString => (false, text)
    | String c rest => if Ascii.eqb c "-" then (true, rest) else (false, text)
    end in
  let (whole, point) := split_at_point body in
  let frac := match point with
              | Some digits => digits
              | None => EmptyString
              end in
  match NilZero.uint_of_string whole, NilEmpty.uint_of_string frac with
  | Some w, Some f =>
      let scale := 10 ^ Z.of_nat (String.length frac) in
      let q := Qmake (Z.of_uint w * scale + Z.of_uint f) (Z.to_pos scale) in
      Some (if negative then Qopp q else q)
  | _, _ => None
  end.

(** The number of characters after the point. *)
Definition places (text : string) : nat :=
  match snd (split_at_point text) with
  | Some digits => String.length digits
  | None => 0
  end.

(** [text] shows the float [f] to the hundredth: for a finite [f] it is a
    numeral with two places for the multiple of 0.01 nearest to the value
    of [f], the even multiple when two are as near; for the others it is
    their name. *)
Definition shows (text : string) (f : spec_float) : Prop :=
  match f with
  | S754_nan => text = "nan"
  | S754_infinity s => text = (if s then "-inf" else "inf")
  | _ =>
      exists n : Z,
        decimal_value text = Some (n # 100) /\
        places text = 2%nat /\
        (Qabs ((n # 100) - float_value f) <= 1 # 200)%Q /\
        ((Qabs ((n # 100) - float_value f) == 1 # 200)%Q -> Z.even n = true)
  end.

(** The two digits after the point read back as the number they pad. *)
Definition two_digits_ok (r : Z) : bool :=
  let text := zero_pad 2 (digits_of r) in
  match NilEmpty.uint_of_string text with
  | Some f => (Z.of_uint f =? r) && (String.length text =? 2)%nat
  | None => false
  end.

(** The lines of the Llama 3 reader around the texts of its three
    figures. *)
Definition llama3_lines (x y : pyval) (ttft thr itl : string) : list line :=
  [ header;
    [Text "Avg. Input token length: "; Str x];
    [Text "Avg. Output token length: "; Str y];
    [Text "Avg. First-Time-To-Token: "; Text ttft; Text "ms"];
    [Text "Avg. Thorughput: "; Text thr; Text " tokens/sec"];
    [Text "Avg. Latency: "; Text itl; Text "ms/token"] ].

Lemma run_bind {St A B} (w : world St) (c : cell A) (f : A -> cell B) (s : St) :
  run w (bind c f) s =
  let o := run w c s in
  match returned o with
  | inl e =>
      {| returned := raise e; final := final o;
         stdout := stdout o; calls := calls o |}
  | inr a =>
      let o' := run w (f a) (final o) in
      {| returned := returned o'; final := final o';
         stdout := stdout o ++ stdout o'; calls := calls o ++ calls o' |}
  end.
Proof.
  revert s; induction c as [a | e | l k IH | X o k IH]; intros s; simpl.
  - destruct (run w (f a) s); reflexivity.
  - reflexivity.
  - rewrite IH; simpl. destruct (returned (run w k s)); reflexivity.
  - destruct (w X o s) as [[e | x] s']; simpl; [reflexivity |].
    rewrite IH; simpl. destruct (returned (run w (k x) s')); reflexivity.
Qed.


(** ** The pattern [*summary.json] *)

Lemma fnmatch_literal (pat name : string) :
  literal pat = true -> fnmatch pat name = String.eqb pat name.
Proof.
  revert name; induction pat as [| c pat IH]; intros name Hlit.
  - destruct name; reflexivity.
  - simpl in Hlit.
    apply andb_prop in Hlit as [Hc Hlit]. apply andb_prop in Hc as [Hstar Hqm].
    apply negb_true_iff in Hstar, Hqm.
    simpl. rewrite Hstar. destruct name as [| c' name]; [reflexivity |].
    rewrite Hqm, IH by assumption. reflexivity.
Qed.

Lemma fnmatch_star (pat name : string) :
  fnmatch (String "*" pat) name = true <->
  exists pre suf, name = pre ++ suf /\ fnmatch pat suf = true.
Proof.
  simpl. induction name as [| c name IH].
  - split.
    + intros H. apply orb_prop in H as [H | H]; [| discriminate].
      exists "", "". split; [reflexivity | assumption].
    + intros (pre & suf & Heq & H).
      destruct pre; [| discriminate]. simpl in Heq; subst suf.
      rewrite H. reflexivity.
  - split.
    + intros H. apply orb_prop in H as [H | H].
      * exists "", (String c name). split; [reflexivity | assumption].
      * apply IH in H as (pre & suf & -> & H).
        exists (String c pre), suf. split; [reflexivity | assumption].
    + intros (pre & suf & Heq & H). destruct pre as [| c' pre].
      * simpl in Heq; subst suf. rewrite H. reflexivity.
      * simpl in Heq. injection Heq as -> ->.
        apply orb_true_intro; right. apply IH. exists pre, suf. auto.
Qed.

(** A name matches [*summary.json] exactly when it ends in [summary.json]. *)
Lemma fnmatch_summary (name : string) :
  fnmatch "*summary.json" name = true <-> exists pre, name = pre ++ "summary.json".
Proof.
  rewrite fnmatch_star. split.
  - intros (pre & suf & -> & H). exists pre.
    rewrite fnmatch_literal in H by reflexivity.
    apply String.eqb_eq in H. subst suf. reflexivity.
  - intros (pre & ->). exists pre, "summary.json". split; reflexivity.
Qed.

Lemma strip_prefix_app (p s : string) : strip_prefix p (p ++ s) = Some s.
Proof.
  induction p as [| c p IH]; simpl; [reflexivity |].
  rewrite Ascii.eqb_refl. exact IH.
Qed.

(** X1: what [glob.glob('results/*summary.json')] returns: exactly the
    names of the results directory that end in [summary.json] and have no
    leading dot, each under [results/]. *)
Lemma glob_summary_spec (listing : list (string * entry)) (path : string) :
  In path (sim_glob listing "results/*summary.json") <->
  exists name pre,
    path = results_dir ++ name /\ In name (map fst listing) /\
    name = pre ++ "summary.json" /\ hidden name = false.
Proof.
  unfold sim_glob. simpl strip_prefix. unfold glob1. rewrite in_map_iff. split.
  - intros (name & <- & Hin). apply filter_In in Hin as [Hin Hm].
    apply andb_prop in Hm as [Hh Hm]. apply fnmatch_summary in Hm as [pre Hpre].
    exists name, pre. simpl in Hh. apply negb_true_iff in Hh. auto.
  - intros (name & pre & -> & Hin & Hpre & Hh). exists name. split; [reflexivity |].
    apply filter_In. split; [assumption |].
    rewrite Hh. simpl. apply fnmatch_summary. exists pre. assumption.
Qed.

(** ** Reading the benchmark summary *)

Lemma seq_index_head {A} (x : A) (l : list A) : seq_index (x :: l) 0 = Some x.
Proof.
  unfold seq_index. simpl Z.ltb. cbv iota.
  replace (Z.of_nat (List.length (x :: l)) <=? 0) with false; [reflexivity |].
  symmetry. apply Z.leb_gt. simpl List.length. lia.
Qed.

Lemma run_load_summary {A} (k : pyval -> cell A) (s : sim) :
  run sim_world (bind load_summary k) s =
  match sim_glob (results s) "results/*summary.json" with
  | [] =>
      {| returned := raise IndexError; final := s; stdout := [];
         calls := [Event (Glob "results/*summary.json")] |}
  | path :: _ =>
      match sim_load_json (results s) path with
      | inl e =>
          {| returned := raise e; final := s; stdout := [];
             calls := [Event (Glob "results/*summary.json");
                       Event (Load_json path)] |}
      | inr data =>
          let o := run sim_world (k data) s in
          {| returned := returned o; final := final o; stdout := stdout o;
             calls := Event (Glob "results/*summary.json")
                      :: Event (Load_json path) :: calls o |}
      end
  end.
Proof.
  unfold load_summary, call. cbn [bind run sim_world ok raise].
  destruct (sim_glob (results s) "results/*summary.json") as [| path rest].
  - reflexivity.
  - rewrite seq_index_head. cbn [lift bind run sim_world ok raise].
    destruct (sim_load_json (results s) path) as [e | data]; reflexivity.
Qed.

Ltac lifts :=
  repeat (cbn [bind lift print run returned stdout calls final ok raise];
          match goal with
          | |- context [lift ?r] => destruct r
          end);
  cbn [bind lift print run returned stdout calls final ok raise].

Lemma llama3_print_results_calls {St} (w : world St) (data : pyval) (s : St) :
  calls (run w (Llama3.print_results data) s) = [] /\
  final (run w (Llama3.print_results data) s) = s.
Proof. unfold Llama3.print_results. lifts; split; reflexivity. Qed.

Lemma mixtral_print_results_calls {St} (w : world St) int_of_str (data : pyval) (s : St) :
  calls (run w (Mixtral.print_results int_of_str data) s) = [] /\
  final (run w (Mixtral.print_results int_of_str data) s) = s.
Proof. unfold Mixtral.print_results. lifts; split; reflexivity. Qed.

(** C1 (as stated, refuted): with two files matching [*summary.json] in
    the results directory the reader does not fail: it returns normally,
    having printed the figures of the match that the listing gives first. *)
Lemma reader_two_matches_reads_first :
  let o := run sim_world Llama3.reader (with_results results_of_two_runs) in
  sim_glob results_of_two_runs "results/*summary.json" =
    [ "results/endpoint-0_550_150_summary.json";
      "results/endpoint-1_550_150_summary.json" ] /\
  returned o = ok tt /\
  stdout o = stdout (run sim_world (Llama3.print_results summary_550_150)
                       (with_results results_of_two_runs)).
Proof. vm_compute. repeat split; reflexivity. Qed.

Lemma run_load_summary_in {St A} (w : world St) (k : pyval -> cell A) (s : St) :
  run w (bind load_summary k) s =
  let the_glob := Glob "results/*summary.json" in
  match w _ the_glob s with
  | (inl e, s1) =>
      {| returned := raise e; final := s1; stdout := []; calls := [Event the_glob] |}
  | (inr [], s1) =>
      {| returned := raise IndexError; final := s1; stdout := [];
         calls := [Event the_glob] |}
  | (inr (path :: _), s1) =>
      match w _ (Load_json path) s1 with
      | (inl e, s2) =>
          {| returned := raise e; final := s2; stdout := [];
             calls := [Event the_glob; Event (Load_json path)] |}
      | (inr data, s2) =>
          let o := run w (k data) s2 in
          {| returned := returned o; final := final o; stdout := stdout o;
             calls := Event the_glob :: Event (Load_json path) :: calls o |}
      end
  end.
Proof.
  unfold load_summary, call. cbn [bind run]. cbv zeta.
  destruct (w _ (Glob "results/*summary.json") s) as [[e | paths] s1];
    [reflexivity |].
  destruct paths as [| path rest].
  - reflexivity.
  - rewrite seq_index_head. cbn [lift bind run ok raise].
    destruct (w _ (Load_json path) s1) as [[e | data] s2]; reflexivity.
Qed.

(** C1 (amended): in any world, the reader of either notebook asks
    [glob] for [results/*summary.json] and loads the first path of the
    answer as JSON, whatever follows it in the answer; it checks neither
    that there is a match nor that there is only one.  With an empty
    answer it ends with IndexError, nothing loaded and nothing printed.
    Otherwise an exception of the load ends it with nothing printed, and
    a loaded value makes the run that of printing its figures: it
    returns normally exactly when that printing does, and an exception of
    the printing ends it after the lines printed before.  It makes no
    call but the glob and the load. *)
Theorem summary_reader_takes_first_match
    {St : Type} (w : world St) (s : St) (int_of_str : string -> option Z) :
  let the_glob := Glob "results/*summary.json" in
  let llama := run w Llama3.reader s in
  let mixtral := run w (Mixtral.reader int_of_str) s in
  match w _ the_glob s with
  | (inl e, _) =>
      returned llama = raise e /\ stdout llama = [] /\
      calls llama = [Event the_glob] /\
      returned mixtral = raise e /\ stdout mixtral = [] /\
      calls mixtral = [Event the_glob]
  | (inr [], _) =>
      returned llama = raise IndexError /\ stdout llama = [] /\
      calls llama = [Event the_glob] /\
      returned mixtral = raise IndexError /\ stdout mixtral = [] /\
      calls mixtral = [Event the_glob]
  | (inr (path :: _), s1) =>
      calls llama = [Event the_glob; Event (Load_json path)] /\
      calls mixtral = [Event the_glob; Event (Load_json path)] /\
      match w _ (Load_json path) s1 with
      | (inl e, _) =>
          returned llama = raise e /\ stdout llama = [] /\
          returned mixtral = raise e /\ stdout mixtral = []
      | (inr data, s2) =>
          let printed := run w (Llama3.print_results data) s2 in
          let printed' := run w (Mixtral.print_results int_of_str data) s2 in
          returned llama = returned printed /\ stdout llama = stdout printed /\
          returned mixtral = returned printed' /\ stdout mixtral = stdout printed'
      end
  end.
Proof.
  unfold Llama3.reader, Mixtral.reader. cbv zeta. rewrite !run_load_summary_in.
  cbv zeta.
  destruct (w _ (Glob "results/*summary.json") s) as [[e | paths] s1].
  - repeat split; reflexivity.
  - destruct paths as [| path rest]; [repeat split; reflexivity |].
    destruct (w _ (Load_json path) s1) as [[e | data] s2]; cbn [calls returned stdout].
    + repeat split; reflexivity.
    + destruct (llama3_print_results_calls w data s2) as [-> _].
      destruct (mixtral_print_results_calls w int_of_str data s2) as [-> _].
      repeat split; reflexivity.
Qed.

Lemma sim_load_json_name (listing : list (string * entry)) (name : string) :
  sim_load_json listing (results_dir ++ name) =
  match dict_get name listing with
  | Some (File loaded) => loaded
  | Some Directory => raise IsADirectoryError
  | None => raise FileNotFoundError
  end.
Proof. unfold sim_load_json. rewrite strip_prefix_app. reflexivity. Qed.

(** C3: when exactly one file of the results directory matches
    [*summary.json] and holds mean_input_tokens = 550, mean_output_tokens
    = 150, results_ttft_s_mean = 5.50533,
    results_mean_output_throughput_token_per_s = 132.8 and
    results_inter_token_latency_s_mean = 0.02346, the Llama 3 reader
    returns normally and reports a time-to-first-token of 5505.33 ms
    (the seconds times 1000, to two decimals) and a latency of 23.46
    ms/token. *)
Theorem llama3_reader_reports_milliseconds
    (listing : list (string * entry)) (name : string) (d : list (string * pyval)) :
  sim_glob listing "results/*summary.json" = [results_dir ++ name] ->
  dict_get name listing = Some (File (ok (PDict d))) ->
  dict_get "mean_input_tokens" d = Some (PInt 550) ->
  dict_get "mean_output_tokens" d = Some (PInt 150) ->
  dict_get "results_ttft_s_mean" d = Some (flt 5.50533) ->
  dict_get "results_mean_output_throughput_token_per_s" d = Some (flt 132.8) ->
  dict_get "results_inter_token_latency_s_mean" d = Some (flt 0.02346) ->
  let o := run sim_world Llama3.reader (with_results listing) in
  returned o = ok tt /\
  stdout o =
    [ [Text "Concurrent requests: 5"];
      [Text "Avg. Input token length: "; Str (PInt 550)];
      [Text "Avg. Output token length: "; Str (PInt 150)];
      [Text "Avg. First-Time-To-Token: "; Text "5505.33"; Text "ms"];
      [Text "Avg. Thorughput: "; Text "132.80"; Text " tokens/sec"];
      [Text "Avg. Latency: "; Text "23.46"; Text "ms/token"] ].
Proof.
  intros Hglob Hfile Hin Hout Httft Hthr Hitl.
  unfold Llama3.reader. cbv zeta. rewrite run_load_summary.
  cbn [results with_results]. rewrite Hglob, sim_load_json_name, Hfile.
  unfold ok. cbv iota zeta.
  unfold Llama3.print_results, milli_2f, field_2f. cbn [getitem].
  rewrite Hin, Hout, Httft, Hthr, Hitl.
  split; vm_compute; reflexivity.
Qed.

Lemma llama3_reader_reports_milliseconds_witness :
  let o := run sim_world Llama3.reader (with_results results_of_one_run) in
  returned o = ok tt /\
  stdout o =
    [ [Text "Concurrent requests: 5"];
      [Text "Avg. Input token length: "; Str (PInt 550)];
      [Text "Avg. Output token length: "; Str (PInt 150)];
      [Text "Avg. First-Time-To-Token: "; Text "5505.33"; Text "ms"];
      [Text "Avg. Thorughput: "; Text "132.80"; Text " tokens/sec"];
      [Text "Avg. Latency: "; Text "23.46"; Text "ms/token"] ].
Proof.
  apply (llama3_reader_reports_milliseconds results_of_one_run
           "endpoint-0_550_150_summary.json"
           (py_dict
              [ ("mean_input_tokens", PInt 550);
                ("mean_output_tokens", PInt 150);
                ("results_ttft_s_mean", flt 5.50533);
                ("results_mean_output_throughput_token_per_s", flt 132.8);
                ("results_inter_token_latency_s_mean", flt 0.02346) ]));
    reflexivity.
Defined.

(** ** The format [.2f] *)

Lemma scaled_round_nearest (p : nat) (m k : positive) :
  let N := scaled_round p m (Zneg k) in
  let num := Zpos m * 10 ^ Z.of_nat p in
  let D := 2 ^ Zpos k in
  0 <= N /\
  Z.abs (2 * (N * D - num)) <= D /\
  (Z.abs (2 * (N * D - num)) = D -> Z.even N = true).
Proof.
  cbv zeta. unfold scaled_round.
  set (num := Zpos m * 10 ^ Z.of_nat p). set (D := 2 ^ Zpos k).
  assert (HD : 0 < D) by (apply Z.pow_pos_nonneg; lia).
  assert (Hnum : 0 <= num)
    by (apply Z.mul_nonneg_nonneg; [lia | apply Z.pow_nonneg; lia]).
  pose proof (Z.div_mod num D ltac:(lia)) as Hdm.
  pose proof (Z.mod_pos_bound num D HD) as Hr.
  assert (Hq : 0 <= num / D) by (apply Z.div_pos; lia).
  set (q := num / D) in *. set (r := num mod D) in *.
  destruct (Z.compare_spec (2 * r) D) as [Heq | Hlt | Hgt].
  - destruct (Z.even q) eqn:Hev.
    + split; [lia |]. split; [| intros _; exact Hev]. lia.
    + split; [lia |]. split; [lia |]. intros _.
      rewrite Z.even_add, Hev. reflexivity.
  - repeat split; lia.
  - repeat split; lia.
Qed.

Lemma digits_of_nonneg (z : Z) :
  0 <= z ->
  exists d : Decimal.uint,
    d <> Decimal.Nil /\ digits_of z = NilEmpty.string_of_uint d /\ Z.of_uint d = z.
Proof.
  intros Hz. unfold digits_of. destruct z as [| p | p]; [| | lia].
  - exists (Decimal.D0 Decimal.Nil). repeat split. discriminate.
  - exists (Pos.to_uint p).
    pose proof (DecimalPos.Unsigned.to_uint_nonnil p) as Hn.
    split; [exact Hn |]. split.
    + cbn [Z.to_int NilZero.string_of_int]. unfold NilZero.string_of_uint.
      destruct (Pos.to_uint p); [contradiction | reflexivity ..].
    + unfold Z.of_uint. rewrite DecimalPos.Unsigned.of_to. reflexivity.
Qed.

Lemma split_at_point_digits (d : Decimal.uint) (frac : string) :
  split_at_point (NilEmpty.string_of_uint d ++ String "." frac) =
  (NilEmpty.string_of_uint d, Some frac).
Proof.
  induction d; cbn [NilEmpty.string_of_uint append split_at_point];
    rewrite ?IHd; reflexivity.
Qed.

Lemma decimal_value_digits (negative : bool) (d f : Decimal.uint) (frac : string) :
  d <> Decimal.Nil ->
  NilEmpty.uint_of_string frac = Some f ->
  decimal_value ((if negative then "-" else "") ++
                 NilEmpty.string_of_uint d ++ String "." frac) =
  let scale := 10 ^ Z.of_nat (String.length frac) in
  let q := Qmake (Z.of_uint d * scale + Z.of_uint f) (Z.to_pos scale) in
  Some (if negative then Qopp q else q).
Proof.
  intros Hd Hf.
  assert (Hw : NilZero.uint_of_string (NilEmpty.string_of_uint d) = Some d).
  { pose proof (NilEmpty.usu d) as Hu. unfold NilZero.uint_of_string.
    destruct d; [contradiction | exact Hu ..]. }
  unfold decimal_value. destruct negative.
  - cbn [append Ascii.eqb Bool.eqb]. rewrite split_at_point_digits, Hw, Hf.
    reflexivity.
  - cbn [append].
    assert (Hhead : match NilEmpty.string_of_uint d ++ String "." frac with
                    | EmptyString => (false, NilEmpty.string_of_uint d ++ String "." frac)
                    | String c rest =>
                        if Ascii.eqb c "-" then (true, rest)
                        else (false, NilEmpty.string_of_uint d ++ String "." frac)
                    end = (false, NilEmpty.string_of_uint d ++ String "." frac))
      by (destruct d; [contradiction | reflexivity ..]).
    rewrite Hhead, split_at_point_digits, Hw, Hf. reflexivity.
Qed.

Lemma two_digits_ok_all : forallb two_digits_ok (map Z.of_nat (seq 0 100)) = true.
Proof. vm_compute. reflexivity. Qed.

Lemma two_digits (r : Z) :
  0 <= r < 100 ->
  exists f : Decimal.uint,
    NilEmpty.uint_of_string (zero_pad 2 (digits_of r)) = Some f /\
    Z.of_uint f = r /\ String.length (zero_pad 2 (digits_of r)) = 2%nat.
Proof.
  intros Hr.
  assert (Hin : In r (map Z.of_nat (seq 0 100))).
  { apply in_map_iff. exists (Z.to_nat r). split; [lia |]. apply in_seq. lia. }
  pose proof (proj1 (forallb_forall _ _) two_digits_ok_all r Hin) as Hok.
  unfold two_digits_ok in Hok.
  destruct (NilEmpty.uint_of_string (zero_pad 2 (digits_of r))) as [f |];
    [| discriminate].
  apply andb_prop in Hok as [H1 H2].
  exists f. split; [reflexivity |]. split.
  - apply Z.eqb_eq, H1.
  - apply Nat.eqb_eq, H2.
Qed.

Lemma places_digits (negative : bool) (d : Decimal.uint) (frac : string) :
  places ((if negative then "-" else "") ++
          NilEmpty.string_of_uint d ++ String "." frac) = String.length frac.
Proof.
  unfold places. destruct negative; cbn [append split_at_point Ascii.eqb Bool.eqb];
    rewrite split_at_point_digits; reflexivity.
Qed.

Lemma scaled_round_whole (p : nat) (m : positive) (e : Z) :
  0 <= e -> scaled_round p m e = Zpos m * 10 ^ Z.of_nat p * 2 ^ e.
Proof. intros He. destruct e; [reflexivity | reflexivity | lia]. Qed.

Lemma scaled_round_nonneg (p : nat) (m : positive) (e : Z) :
  0 <= scaled_round p m e.
Proof.
  destruct e as [| k | k].
  - rewrite scaled_round_whole by lia.
    apply Z.mul_nonneg_nonneg; [apply Z.mul_nonneg_nonneg |]; try lia;
      apply Z.pow_nonneg; lia.
  - rewrite scaled_round_whole by lia.
    apply Z.mul_nonneg_nonneg; [apply Z.mul_nonneg_nonneg |]; try lia;
      apply Z.pow_nonneg; lia.
  - apply (scaled_round_nearest p m k).
Qed.

(** What [format_fixed 2] writes for a finite float reads back as the
    integer it rounded to, over 100, with the sign of the float. *)
Lemma format_fixed_reads_back (s : bool) (m : positive) (e : Z) :
  let n := cond_Zopp s (scaled_round 2 m e) in
  decimal_value (format_fixed 2 (S754_finite s m e)) = Some (n # 100) /\
  places (format_fixed 2 (S754_finite s m e)) = 2%nat.
Proof.
  cbv zeta. unfold format_fixed. cbv zeta.
  change (Nat.eqb 2 0) with false. cbv iota.
  change (10 ^ Z.of_nat 2) with 100.
  set (N := scaled_round 2 m e).
  assert (HN : 0 <= N) by apply scaled_round_nonneg.
  assert (Hq : 0 <= N / 100) by (apply Z.div_pos; lia).
  assert (Hr : 0 <= N mod 100 < 100) by (apply Z.mod_pos_bound; lia).
  destruct (digits_of_nonneg (N / 100) Hq) as (d & Hd & Hdig & Hval).
  destruct (two_digits (N mod 100) Hr) as (f & Hf & Hfval & Hlen).
  rewrite Hdig.
  change ("." ++ zero_pad 2 (digits_of (N mod 100)))
    with (String "." (zero_pad 2 (digits_of (N mod 100)))).
  split.
  - rewrite (decimal_value_digits s d f _ Hd Hf). cbv zeta.
    rewrite Hlen, Hval, Hfval.
    change (10 ^ Z.of_nat 2) with 100. change (Z.to_pos 100) with 100%positive.
    replace (N / 100 * 100 + N mod 100) with N
      by (pose proof (Z.div_mod N 100 ltac:(lia)); lia).
    destruct s; reflexivity.
  - rewrite places_digits. exact Hlen.
Qed.

(** [format_fixed 2] shows its float to the hundredth. *)
Lemma format_fixed_shows (f : spec_float) : shows (format_fixed 2 f) f.
Proof.
  destruct f as [s | s | | s m e].
  - exists 0. destruct s; repeat split; try discriminate.
  - reflexivity.
  - reflexivity.
  - pose proof (format_fixed_reads_back s m e) as [Hread Hplaces].
    cbv zeta in Hread. unfold shows.
    exists (cond_Zopp s (scaled_round 2 m e)).
    split; [exact Hread |]. split; [exact Hplaces |].
    destruct e as [| k | k].
    + rewrite scaled_round_whole by lia.
      cbn [float_value]. unfold Qabs, Qminus, Qplus, Qopp, Qle, Qeq, inject_Z.
      cbn [Qnum Qden]. change (2 ^ 0) with 1. change (10 ^ Z.of_nat 2) with 100.
      destruct s; cbn [cond_Zopp]; split; lia.
    + rewrite scaled_round_whole by lia.
      cbn [float_value]. unfold Qabs, Qminus, Qplus, Qopp, Qle, Qeq, inject_Z.
      cbn [Qnum Qden]. change (10 ^ Z.of_nat 2) with 100.
      assert (Hpow : 0 < 2 ^ Zpos k) by (apply Z.pow_pos_nonneg; lia).
      set (P := 2 ^ Zpos k) in *. clearbody P.
      destruct s; cbn [cond_Zopp]; split; nia.
    + pose proof (scaled_round_nearest 2 m k) as (HN & Hnear & Htie).
      cbv zeta in Hnear, Htie. change (10 ^ Z.of_nat 2) with 100 in Hnear, Htie.
      cbn [float_value]. unfold Qabs, Qminus, Qplus, Qopp, Qle, Qeq.
      cbn [Qnum Qden].
      rewrite !Pos2Z.inj_mul, Pos2Z.inj_pow.
      set (N := scaled_round 2 m (Zneg k)) in *.
      set (D := 2 ^ Zpos k) in *.
      assert (HD : 0 < D) by (apply Z.pow_pos_nonneg; lia).
      set (X := N * D) in *.
      destruct s; cbn [cond_Zopp].
      * replace (- N * D) with (- X) by (unfold X; ring). split.
        -- lia.
        -- intros Heq. rewrite Z.even_opp. apply Htie. lia.
      * split.
        -- lia.
        -- intros Heq. apply Htie. lia.
Qed.

(** ** [int()] of a float *)

Lemma int_of_float_finite (f : spec_float) :
  finite f = true -> exists n, int_of_float f = ok n.
Proof.
  destruct f as [s | s | | s m e]; simpl; try discriminate; intros _.
  - exists 0. reflexivity.
  - destruct e; eexists; reflexivity.
Qed.

Lemma truncation_exact (n : Z) : truncation n (inject_Z n).
Proof.
  unfold truncation, Qle, Qlt; simpl. split; intros _; split; lia.
Qed.

Lemma int_of_float_truncation (f : spec_float) (n : Z) :
  int_of_float f = ok n -> truncation n (float_value f).
Proof.
  destruct f as [s | s | | s m e]; cbn [int_of_float float_value];
    try discriminate.
  - intros [= <-]. apply (truncation_exact 0).
  - destruct e as [| p | p]; intros [= <-]; try apply truncation_exact.
    assert (HD : Zpos (2 ^ p) = 2 ^ Zpos p) by apply Pos2Z.inj_pow.
    assert (Hpos : 0 < 2 ^ Zpos p) by (apply Z.pow_pos_nonneg; lia).
    pose proof (Z.div_mod (Zpos m) (2 ^ Zpos p) ltac:(lia)) as Hdm.
    pose proof (Z.mod_pos_bound (Zpos m) (2 ^ Zpos p) Hpos) as Hr.
    unfold truncation, Qle, Qlt, Qplus, Qminus, Qopp, inject_Z.
    cbn [Qnum Qden Qplus Qopp].
    rewrite ?Pos.mul_1_r, ?Z.mul_1_r, ?HD.
    change (Z.pow_pos 2 p) with (2 ^ Zpos p) in *.
    set (D := 2 ^ Zpos p) in *. set (q := Zpos m / D) in *.
    set (r := Zpos m mod D) in *. clearbody D q r.
    destruct s; cbn [cond_Zopp]; split; intros H; split; nia.
Qed.


Lemma float_of_int_1000 : float_of_int 1000 = ok (Prim2SF 1000).
Proof. vm_compute. reflexivity. Qed.



(** On the sample summary the reader prints 562 and 676 for the means
    562.94 and 676.5. *)
Example mixtral_reader_sample :
  stdout (run sim_world (Mixtral.reader (fun _ => None))
            (with_results results_of_mixtral_run)) =
  [ [Text "Concurrent requests: 5"];
    [Text "Avg. Input token length: "; Str (PInt 562)];
    [Text "Avg. Output token length: "; Str (PInt 676)];
    [Text "Avg. Time-to-first-Token: "; Text "2435.47"; Text "ms"];
    [Text "Avg. Inter-Token-Latency: "; Text "10.67"; Text "ms/token"];
    [Text "Avg. Thorughput: "; Text "288.00"; Text " tokens/sec"];
    [Text "Request per minute (RPM): "; Text "25.54"; Text " req/min"] ].
Proof. vm_compute. reflexivity. Qed.

(** ** The calls of a whole run *)

Section Avoids.
Variable p : event -> bool.

Lemma avoids_ret {A} (a : A) : avoids p (Ret a).
Proof. intros St w s. reflexivity. Qed.

Lemma avoids_lift {A} (r : result A) : avoids p (lift r).
Proof. intros St w s. destruct r; reflexivity. Qed.

Lemma avoids_print (l : line) : avoids p (print l).
Proof. intros St w s. reflexivity. Qed.

Lemma avoids_call {X} (o : op X) : p (Event o) = false -> avoids p (call o).
Proof.
  intros Ho St w s. unfold call. cbn [run].
  destruct (w X o s) as [[e | x] s']; cbn [calls run existsb]; rewrite Ho; reflexivity.
Qed.

Lemma avoids_bind {A B} (c : cell A) (f : A -> cell B) :
  avoids p c -> (forall a, avoids p (f a)) -> avoids p (bind c f).
Proof.
  intros Hc Hf St w s. rewrite run_bind. cbv zeta.
  specialize (Hc St w s).
  destruct (returned (run w c s)) as [e | a]; cbn [calls]; [exact Hc |].
  rewrite existsb_app, Hc. apply Hf.
Qed.
End Avoids.

Lemma no_predict_after_delete_app (l1 l2 : list event) :
  existsb is_deletion l1 = false ->
  no_predict_after_delete (l1 ++ l2) = no_predict_after_delete l2.
Proof.
  induction l1 as [| e l1 IH]; intros H; [reflexivity |].
  cbn [existsb] in H. apply orb_false_elim in H as [He H].
  cbn [app no_predict_after_delete]. unfold is_deletion in He.
  destruct (deleted_handle e); [discriminate |]. apply IH, H.
Qed.

Lemma is_predict_on_is_predict (name : string) (e : event) :
  is_predict_on name e = true -> is_predict e = true.
Proof. destruct e as [X []]; simpl; auto. Qed.

Lemma no_predict_after_delete_silent (l : list event) :
  existsb is_predict l = false -> no_predict_after_delete l = true.
Proof.
  induction l as [| e l IH]; intros H; [reflexivity |].
  cbn [existsb] in H. apply orb_false_elim in H as [He H].
  cbn [no_predict_after_delete]. rewrite (IH H), andb_true_r.
  destruct (deleted_handle e) as [name |]; [| reflexivity].
  apply negb_true_iff. apply not_true_is_false. intros Hex.
  apply existsb_exists in Hex as (e' & Hin & He').
  apply is_predict_on_is_predict in He'.
  assert (Hc : existsb is_predict l = true) by (apply existsb_exists; eauto).
  congruence.
Qed.

Lemma ordered_silent {A} (c : cell A) : avoids is_predict c -> ordered c.
Proof. intros H St w s. apply no_predict_after_delete_silent, H. Qed.

Lemma ordered_bind {A B} (c : cell A) (f : A -> cell B) :
  avoids is_deletion c -> (forall a, ordered (f a)) -> ordered (bind c f).
Proof.
  intros Hc Hf St w s. rewrite run_bind. cbv zeta.
  specialize (Hc St w s).
  destruct (returned (run w c s)) as [e | a]; cbn [calls].
  - rewrite <- (app_nil_r (calls (run w c s))).
    rewrite no_predict_after_delete_app by exact Hc. reflexivity.
  - rewrite no_predict_after_delete_app by exact Hc. apply Hf.
Qed.

Ltac unfold_cells :=
  unfold Llama3.notebook, Llama3.create_model, Llama3.deploy, Llama3.chat,
    Llama3.demo, Llama3.reader, Llama3.print_results,
    Mixtral.notebook, Mixtral.compile, Mixtral.create_model, Mixtral.deploy,
    Mixtral.chat, Mixtral.demo, Mixtral.reader, Mixtral.print_results,
    install_llmperf, token_benchmark, load_summary, print_chat, clean_up;
  cbv zeta.

Ltac avoid :=
  repeat first
    [ apply avoids_ret
    | apply avoids_lift
    | apply avoids_print
    | apply avoids_call; reflexivity
    | apply avoids_bind
    | intro ].

Ltac in_order :=
  repeat (apply ordered_bind; [solve [avoid] | intro]);
  apply ordered_silent; avoid.

(** X19: the order of the calls.  In every run of either notebook,
    whatever the platform answers, no inference call on an endpoint
    comes after a deletion call on it: the one [predict] is made before
    the clean-up cell, and a failed call ends the run. *)
Theorem no_inference_after_deletion
    {St : Type} (w : world St) (s : St)
    (int_of_str : string -> option Z) (role llm_image : string) :
  no_predict_after_delete (calls (run w (Llama3.notebook role llm_image) s)) = true /\
  no_predict_after_delete
    (calls (run w (Mixtral.notebook int_of_str role llm_image) s)) = true.
Proof.
  split.
  - assert (H : ordered (Llama3.notebook role llm_image))
      by (unfold_cells; in_order).
    apply H.
  - assert (H : ordered (Mixtral.notebook int_of_str role llm_image))
      by (unfold_cells; in_order).
    apply H.
Qed.

(** ** The environment of the deploy call *)

Lemma deploy_envs_app (l1 l2 : list event) :
  deploy_envs (l1 ++ l2) = (deploy_envs l1 ++ deploy_envs l2)%list.
Proof.
  induction l1 as [| [X o] l1 IH]; [reflexivity |].
  destruct o; cbn [app deploy_envs]; rewrite IH; reflexivity.
Qed.

Lemma deploy_envs_none (l : list event) :
  existsb is_deploy l = false -> deploy_envs l = [].
Proof.
  induction l as [| [X o] l IH]; [reflexivity |].
  destruct o; cbn [existsb is_deploy orb deploy_envs]; auto; discriminate.
Qed.

Lemma deploy_envs_avoids {St A} (w : world St) (c : cell A) (s : St) :
  avoids is_deploy c -> deploy_envs (calls (run w c s)) = [].
Proof. intros H. apply deploy_envs_none, H. Qed.

Lemma llama3_config_all_str (token : option string) :
  all_str (Llama3.config token) = true <-> token <> None.
Proof.
  destruct token as [t |]; cbn; split; congruence.
Qed.

(** C8 (as stated, refuted): with no Hugging Face token stored,
    [HfFolder.get_token()] returns None, and the environment map that the
    Llama 3 notebook passes to its deploy call carries None under
    HF_TOKEN, which is not a string. *)
Lemma llama3_env_holds_None_without_token :
  deploy_envs (calls (run sim_world (Llama3.notebook "role" "image")
                        (with_results results_of_one_run))) =
    [Llama3.config None] /\
  dict_get "HF_TOKEN" (Llama3.config None) = Some PNone /\
  all_str (Llama3.config None) = false.
Proof. vm_compute. repeat split; reflexivity. Qed.

(** C8 (amended): whatever the platform answers, the environment map of
    every deploy call of the Mixtral notebook has only strings as values,
    and that of every deploy call of the Llama 3 notebook is the
    configuration built around the token that [HfFolder.get_token()]
    returned: all its values are strings exactly when there is a token.
    Keys are strings by the type of the map. *)
Theorem deploy_env_values
    {St : Type} (w : world St) (s : St)
    (int_of_str : string -> option Z) (role llm_image : string) :
  Forall (fun e => all_str e = true)
    (deploy_envs (calls (run w (Mixtral.notebook int_of_str role llm_image) s))) /\
  Forall (fun e => exists token : option string,
                     fst (w _ HfFolder_get_token s) = ok token /\
                     e = Llama3.config token /\
                     (all_str e = true <-> token <> None))
    (deploy_envs (calls (run w (Llama3.notebook role llm_image) s))).
Proof.
  split.
  - unfold Mixtral.notebook. rewrite run_bind. cbv zeta.
    assert (Hc : deploy_envs (calls (run w Mixtral.compile s)) = [])
      by (apply deploy_envs_avoids; unfold_cells; avoid).
    destruct (returned (run w Mixtral.compile s)) as [e | []]; cbn [calls].
    + rewrite Hc. constructor.
    + rewrite deploy_envs_app, Hc. cbn [app].
      unfold Mixtral.create_model, Mixtral.deploy, call. cbv zeta.
      cbn [bind run].
      destruct (w _ _ (final (run w Mixtral.compile s))) as [[e | llm] s1];
        cbn [calls deploy_envs Event].
      * repeat constructor.
      * rewrite deploy_envs_avoids by (unfold_cells; avoid).
        repeat constructor.
  - unfold Llama3.notebook, Llama3.create_model, Llama3.deploy, call. cbv zeta.
    cbn [bind run].
    destruct (w _ HfFolder_get_token s) as [[e | token] s1];
      cbn [calls deploy_envs Event fst]; [constructor |].
    destruct (w _ _ s1) as [[e | llm] s2]; cbn [calls deploy_envs Event].
    + repeat constructor. exists token.
      split; [reflexivity |]. split; [reflexivity |]. apply llama3_config_all_str.
    + rewrite deploy_envs_avoids by (unfold_cells; avoid).
      repeat constructor. exists token.
      split; [reflexivity |]. split; [reflexivity |]. apply llama3_config_all_str.
Qed.

(** ** The clean-up cell *)

(** C5 (as stated, refuted): on an account that answers a deletion of a
    missing model or endpoint with a client error, deploying and cleaning
    up twice ends with that error: the first clean-up succeeds, the second
    fails at its [delete_model]. *)
Lemma second_clean_up_raises :
  let o := run sim_world deploy_and_clean_up_twice (with_results []) in
  returned o = raise ClientError /\
  map deleted_handle (calls o) =
    [None; Some "endpoint-0"; Some "endpoint-0"; Some "endpoint-0"] /\
  models (final o) = [] /\ endpoints (final o) = [].
Proof. vm_compute. repeat split; reflexivity. Qed.

(** C5 (amended): the clean-up cell calls [delete_model] and then
    [delete_endpoint] on the handle and handles no error.  Run in any
    state of any platform, it is a no-op that returns normally exactly
    when the platform answers both deletions with success and is back in
    the state it started from; an exception of either call ends the
    cell. *)
Theorem clean_up_no_op_iff_platform
    {St : Type} (w : world St) (llm : Predictor) (s : St) :
  let o := run w (clean_up llm) s in
  ((returned o = ok tt /\ final o = s) <->
   (exists s1 : St,
      w _ (Delete_model llm) s = (ok tt, s1) /\
      w _ (Delete_endpoint llm) s1 = (ok tt, s))) /\
  (forall (e : exn) (s1 : St),
     w _ (Delete_model llm) s = (raise e, s1) -> returned o = raise e) /\
  (forall (e : exn) (s1 s2 : St),
     w _ (Delete_model llm) s = (ok tt, s1) ->
     w _ (Delete_endpoint llm) s1 = (raise e, s2) -> returned o = raise e).
Proof.
  unfold clean_up, call. cbn [bind run]. unfold ok, raise.
  split; [| split].
  - destruct (w _ (Delete_model llm) s) as [[e | []] s1]; cbn [returned final].
    + split; [intros [H _]; discriminate | intros (s2 & H & _); discriminate].
    + destruct (w _ (Delete_endpoint llm) s1) as [[e | []] s2] eqn:Hend;
        cbn [returned final].
      * split; [intros [H _]; discriminate |].
        intros (s3 & [= <-] & H). rewrite Hend in H. discriminate.
      * split.
        -- intros [_ ->]. exists s1. split; [reflexivity | exact Hend].
        -- intros (s3 & [= <-] & H). rewrite Hend in H. injection H as ->.
           split; reflexivity.
  - intros e s1 Hm. rewrite Hm. reflexivity.
  - intros e s1 s2 Hm He. rewrite Hm. cbn [returned]. rewrite He. reflexivity.
Qed.

(** ** The endpoint configuration *)

(** C2 (as stated, refuted): a configuration whose MAX_INPUT_LENGTH
    exceeds MAX_TOTAL_TOKENS is not rejected: the model object keeps it
    and the deploy cell passes it on to the deploy call. *)
Lemma oversized_config_is_not_rejected :
  consistent (env_int oversized_config "HF_SEQUENCE_LENGTH")
    (env_int oversized_config "HF_BATCH_SIZE") oversized_config = false /\
  sagemaker.env (new_HuggingFaceModel "role" "image" oversized_config) =
    oversized_config /\
  deploy_envs
    (calls (run sim_world
              (Llama3.deploy (new_HuggingFaceModel "role" "image" oversized_config))
              (with_results []))) = [oversized_config].
Proof. vm_compute. repeat split; reflexivity. Qed.

(** C2 (amended): the two configurations written in the notebooks are
    consistent: MAX_TOTAL_TOKENS is the compiled sequence length
    (HF_SEQUENCE_LENGTH for Llama 3, SEQUENCE_LENGTH of the compilation
    cell for the Mixtral model named by HF_MODEL_ID), MAX_INPUT_LENGTH is
    below MAX_TOTAL_TOKENS, and MAX_BATCH_SIZE is the compiled batch size.
    Nothing checks this: the model object keeps whatever map it is given,
    and the deploy cell passes that map to the deploy call. *)
Theorem notebook_configs_consistent :
  (forall token : option string,
     let cfg := Llama3.config token in
     consistent (env_int cfg "HF_SEQUENCE_LENGTH") (env_int cfg "HF_BATCH_SIZE") cfg
     = true) /\
  consistent (Some Mixtral.SEQUENCE_LENGTH) (Some Mixtral.BATCH_SIZE) Mixtral.config
  = true /\
  dict_get "HF_MODEL_ID" Mixtral.config = Some (PStr Mixtral.HF_MODEL_ID_TO_PUSH) /\
  (forall (role image_uri : string) (cfg : list (string * pyval)),
     sagemaker.env (new_HuggingFaceModel role image_uri cfg) = cfg) /\
  (forall St (w : world St) (s : St) (m : HuggingFaceModel),
     deploy_envs (calls (run w (Llama3.deploy m) s)) = [sagemaker.env m] /\
     deploy_envs (calls (run w (Mixtral.deploy m) s)) = [sagemaker.env m]).
Proof.
  split; [intros [t |]; reflexivity |].
  split; [reflexivity |]. split; [reflexivity |]. split; [reflexivity |].
  intros St w s m. unfold Llama3.deploy, Mixtral.deploy, call. cbv zeta.
  cbn [run]. split.
  - destruct (w _ _ s) as [[e | llm] s1]; reflexivity.
  - destruct (w _ _ s) as [[e | llm] s1]; reflexivity.
Qed.

(** ** The request body *)

Lemma dict_get_set {V} (k k' : string) (v : V) (d : list (string * V)) :
  dict_get k (dict_set k' v d) = if String.eqb k k' then Some v else dict_get k d.
Proof.
  induction d as [| [k0 v0] d IH]; cbn [dict_set dict_get].
  - destruct (String.eqb k k'); reflexivity.
  - destruct (String.eqb k' k0) eqn:E0; cbn [dict_get].
    + apply String.eqb_eq in E0. subst k0.
      destruct (String.eqb k k'); reflexivity.
    + rewrite IH. destruct (String.eqb k k0) eqn:E1; [| reflexivity].
      apply String.eqb_eq in E1. subst k0.
      rewrite String.eqb_sym, E0. reflexivity.
Qed.

Lemma mixtral_request_body_conforms (messages : list pyval) :
  body_keys (Mixtral.request_body messages Mixtral.parameters) = required_fields /\
  conforms (Mixtral.request_body messages Mixtral.parameters) = true.
Proof. split; reflexivity. Qed.

(** C4: the body of the Llama 3 inference call.  Its keys are the five
    required fields, [stop], and a seventh key [steam] that the schema
    does not have; the body does not conform, and it is the body the chat
    cell sends. *)
Theorem llama3_request_body_has_steam (messages : list pyval) :
  body_keys (Llama3.request_body messages Llama3.parameters) =
    ["messages"; "model"; "top_p"; "temperature"; "max_tokens"; "stop"; "steam"] /\
  getitem (Llama3.request_body messages Llama3.parameters) "steam" = ok (PBool true) /\
  getitem (Llama3.request_body messages Llama3.parameters) "stream" = raise KeyError /\
  conforms (Llama3.request_body messages Llama3.parameters) = false /\
  (forall St (w : world St) (s : St) (llm : Predictor),
     hd_error (calls (run w (Llama3.chat llm) s)) =
     Some (Event (Predict llm (Llama3.request_body Llama3.messages Llama3.parameters)))).
Proof.
  split; [reflexivity |]. split; [reflexivity |]. split; [reflexivity |].
  split; [reflexivity |].
  intros St w s llm. unfold Llama3.chat, call. cbn [bind run].
  destruct (w _ _ s) as [[e | chat] s1]; reflexivity.
Qed.

(** ** Further facts about the cells *)

(** The deploy cell makes one call: a deploy of the model, marked as
    compiled, on one ml.inf2.48xlarge instance with a start-up health
    check timeout of 2400 seconds and a 512 GB volume. *)
Lemma deploy_call_arguments {St} (w : world St) (s : St) (m : HuggingFaceModel) :
  calls (run w (Llama3.deploy m) s) =
  [ Event (Deploy (set_is_compiled_model m true)
             {| sagemaker.initial_instance_count := 1;
                sagemaker.instance_type := "ml.inf2.48xlarge";
                sagemaker.container_startup_health_check_timeout := 2400;
                sagemaker.volume_size := 512 |}) ] /\
  calls (run w (Mixtral.deploy m) s) = calls (run w (Llama3.deploy m) s).
Proof.
  unfold Llama3.deploy, Mixtral.deploy, call. cbv zeta. cbn [run].
  destruct (w _ _ s) as [[e | llm] s1]; split; reflexivity.
Qed.

(** On the sample account a request to the endpoint after the clean-up
    is answered with a client error. *)
Example predict_after_clean_up_fails :
  returned (run sim_world predict_after_clean_up (with_results [])) = raise ClientError.
Proof. vm_compute. reflexivity. Qed.

(** The products behind the two printed times are within half a hundredth
    of 5505.33 and of 23.46. *)
Example printed_times_are_close :
  (Qabs (float_value (fmul (Prim2SF 5.50533) (Prim2SF 1000)) - (550533 # 100)) < (1 # 200))%Q /\
  (Qabs (float_value (fmul (Prim2SF 0.02346) (Prim2SF 1000)) - (2346 # 100)) < (1 # 200))%Q.
Proof. split; vm_compute; reflexivity. Qed.

(** The reader of the Llama 3 notebook with no summary in the results
    directory. *)
Example reader_without_summary :
  let o := run sim_world Llama3.reader
             (with_results [("endpoint-0_550_150_individual_responses.json",
                             File (ok (PList [])))]) in
  returned o = raise IndexError /\ stdout o = [].
Proof. vm_compute. split; reflexivity. Qed.

(** ** More on the readers *)

(** X2: a summary that is not a JSON object (an array, a string, a
    number, null) stops either reader right after its first line, with a
    TypeError. *)
Theorem readers_stop_at_non_dict
    {St : Type} (w : world St) (s : St)
    (int_of_str : string -> option Z) (data : pyval) :
  is_dict data = false ->
  let llama := run w (Llama3.print_results data) s in
  let mixtral := run w (Mixtral.print_results int_of_str data) s in
  returned llama = raise TypeError /\ stdout llama = [header] /\
  returned mixtral = raise TypeError /\ stdout mixtral = [header].
Proof.
  intros Hd. destruct data; try discriminate Hd; repeat split; reflexivity.
Qed.

Lemma readers_stop_at_non_dict_witness :
  let llama := run sim_world (Llama3.print_results (PList [])) (with_results []) in
  let mixtral := run sim_world (Mixtral.print_results (fun _ => None) (PList []))
                   (with_results []) in
  returned llama = raise TypeError /\ stdout llama = [header] /\
  returned mixtral = raise TypeError /\ stdout mixtral = [header].
Proof.
  apply (readers_stop_at_non_dict sim_world (with_results []) (fun _ => None) (PList [])).
  reflexivity.
Defined.

(** X3: the two readers look for different keys.  A summary without
    mean_input_tokens stops the Llama 3 reader after its first line with
    a KeyError, and one without results_number_input_tokens_mean stops
    the Mixtral reader the same way, whatever else the summary holds. *)
Theorem readers_stop_at_missing_key
    {St : Type} (w : world St) (s : St)
    (int_of_str : string -> option Z) (d : list (string * pyval)) :
  (dict_get "mean_input_tokens" d = None ->
   let o := run w (Llama3.print_results (PDict d)) s in
   returned o = raise KeyError /\ stdout o = [header]) /\
  (dict_get "results_number_input_tokens_mean" d = None ->
   let o := run w (Mixtral.print_results int_of_str (PDict d)) s in
   returned o = raise KeyError /\ stdout o = [header]).
Proof.
  split; intros Hk.
  - unfold Llama3.print_results. cbn [getitem]. rewrite Hk. split; reflexivity.
  - unfold Mixtral.print_results, Mixtral.field_int. cbn [getitem]. rewrite Hk.
    split; reflexivity.
Qed.

(** The summary of one notebook read by the reader of the other. *)
Example readers_do_not_read_each_others_summary :
  returned (run sim_world (Llama3.print_results summary_mixtral) (with_results []))
  = raise KeyError /\
  returned (run sim_world (Mixtral.print_results (fun _ => None) summary_550_150)
              (with_results []))
  = raise KeyError.
Proof. split; reflexivity. Qed.

(** X4: the Llama 3 reader never fails on the values of a well-formed
    summary: with the five keys present and the three figures floats
    (finite or not), it prints its six lines and returns normally; the
    two token fields are shown with [str], whatever they are. *)
Theorem llama3_reader_prints_floats
    {St : Type} (w : world St) (s : St) (d : list (string * pyval))
    (x y : pyval) (ttft thr itl : spec_float) :
  dict_get "mean_input_tokens" d = Some x ->
  dict_get "mean_output_tokens" d = Some y ->
  dict_get "results_ttft_s_mean" d = Some (PFloat ttft) ->
  dict_get "results_mean_output_throughput_token_per_s" d = Some (PFloat thr) ->
  dict_get "results_inter_token_latency_s_mean" d = Some (PFloat itl) ->
  let o := run w (Llama3.print_results (PDict d)) s in
  returned o = ok tt /\ stdout o = llama3_report x y ttft thr itl /\ calls o = [].
Proof.
  intros Hx Hy Httft Hthr Hitl.
  unfold Llama3.print_results, milli_2f, field_2f. cbn [getitem].
  rewrite Hx, Hy, Httft, Hthr, Hitl.
  cbn [rbind ok mul_int format_2f]. rewrite float_of_int_1000.
  repeat split; reflexivity.
Qed.

Lemma llama3_reader_prints_floats_witness :
  let o := run sim_world (Llama3.print_results summary_550_150) (with_results []) in
  returned o = ok tt /\
  stdout o = llama3_report (PInt 550) (PInt 150)
               (Prim2SF 5.50533) (Prim2SF 132.8) (Prim2SF 0.02346) /\
  calls o = [].
Proof.
  apply (llama3_reader_prints_floats sim_world (with_results [])
           (py_dict
              [ ("mean_input_tokens", PInt 550);
                ("mean_output_tokens", PInt 150);
                ("results_ttft_s_mean", flt 5.50533);
                ("results_mean_output_throughput_token_per_s", flt 132.8);
                ("results_inter_token_latency_s_mean", flt 0.02346) ]));
    reflexivity.
Defined.



(** X6: a token mean that is a whole number is reported as that number
    by the Mixtral reader: [int()] of a finite float with an integral
    value returns exactly that value. *)
Theorem mixtral_reader_keeps_whole_means
    (int_of_str : string -> option Z) (d : list (string * pyval))
    (key : string) (f : spec_float) :
  dict_get key d = Some (PFloat f) ->
  finite f = true ->
  integral (float_value f) ->
  exists n : Z,
    Mixtral.field_int int_of_str (PDict d) key = ok (PInt n) /\
    (inject_Z n == float_value f)%Q.
Proof.
  intros Hk Hf [k Hv].
  destruct (int_of_float_finite f Hf) as [n Hn]. exists n.
  unfold Mixtral.field_int. cbn [getitem]. rewrite Hk.
  cbn [rbind ok py_int]. rewrite Hn. split; [reflexivity |].
  destruct (int_of_float_truncation f n Hn) as [Hpos Hneg].
  rewrite Hv in Hpos, Hneg |- *.
  clear Hv. unfold Qminus, Qle, Qlt, Qeq, Qplus, Qopp, inject_Z in *.
  cbn [Qnum Qden Pos.mul Z.opp] in *.
  destruct (Z.le_gt_cases 0 k) as [H | H].
  - destruct Hpos as [H1 H2]; lia.
  - destruct Hneg as [H1 H2]; lia.
Qed.

Lemma mixtral_reader_keeps_whole_means_witness :
  exists n : Z,
    Mixtral.field_int (fun _ => None)
      (PDict [("results_number_input_tokens_mean", flt 562)])
      "results_number_input_tokens_mean" = ok (PInt n) /\
    (inject_Z n == float_value (Prim2SF 562))%Q.
Proof.
  apply (mixtral_reader_keeps_whole_means (fun _ => None)
           [("results_number_input_tokens_mean", flt 562)]
           "results_number_input_tokens_mean" (Prim2SF 562)).
  - reflexivity.
  - reflexivity.
  - exists 562. vm_compute. reflexivity.
Defined.

(** X7: the three figures of the Llama 3 reader are written to two
    decimals.  With the five keys present and the three figures floats,
    each text the reader prints for a finite figure is a numeral with two
    places for the hundredth nearest to the float (ties to the even
    hundredth), the two times after the binary64 product by 1000; NaN
    and the infinities are printed by name. *)
Theorem llama3_reader_figures_to_the_hundredth
    {St : Type} (w : world St) (s : St) (d : list (string * pyval))
    (x y : pyval) (ttft thr itl : spec_float) :
  dict_get "mean_input_tokens" d = Some x ->
  dict_get "mean_output_tokens" d = Some y ->
  dict_get "results_ttft_s_mean" d = Some (PFloat ttft) ->
  dict_get "results_mean_output_throughput_token_per_s" d = Some (PFloat thr) ->
  dict_get "results_inter_token_latency_s_mean" d = Some (PFloat itl) ->
  let o := run w (Llama3.print_results (PDict d)) s in
  exists t_ttft t_thr t_itl : string,
    stdout o = llama3_lines x y t_ttft t_thr t_itl /\
    shows t_ttft (SFmul prec emax ttft (Prim2SF 1000)) /\
    shows t_thr thr /\
    shows t_itl (SFmul prec emax itl (Prim2SF 1000)).
Proof.
  intros Hx Hy Httft Hthr Hitl.
  exists (format_fixed 2 (fmul ttft (Prim2SF 1000))), (format_fixed 2 thr),
         (format_fixed 2 (fmul itl (Prim2SF 1000))).
  unfold Llama3.print_results, milli_2f, field_2f. cbn [getitem].
  rewrite Hx, Hy, Httft, Hthr, Hitl.
  cbn [rbind ok mul_int format_2f]. rewrite float_of_int_1000.
  split; [reflexivity |]. repeat split; apply format_fixed_shows.
Qed.

Lemma llama3_reader_figures_to_the_hundredth_witness :
  let o := run sim_world (Llama3.print_results summary_550_150) (with_results []) in
  exists t_ttft t_thr t_itl : string,
    stdout o = llama3_lines (PInt 550) (PInt 150) t_ttft t_thr t_itl /\
    shows t_ttft (SFmul prec emax (Prim2SF 5.50533) (Prim2SF 1000)) /\
    shows t_thr (Prim2SF 132.8) /\
    shows t_itl (SFmul prec emax (Prim2SF 0.02346) (Prim2SF 1000)).
Proof.
  apply (llama3_reader_figures_to_the_hundredth sim_world (with_results [])
           (py_dict
              [ ("mean_input_tokens", PInt 550);
                ("mean_output_tokens", PInt 150);
                ("results_ttft_s_mean", flt 5.50533);
                ("results_mean_output_throughput_token_per_s", flt 132.8);
                ("results_inter_token_latency_s_mean", flt 0.02346) ]));
    reflexivity.
Defined.

(** ** More on the request and the response *)

Lemma dict_get_absent {V} (k : string) (d : list (string * V)) :
  ~ In k (dict_keys d) -> dict_get k d = None.
Proof.
  induction d as [| [k' v'] d IH]; intros Hk; [reflexivity |].
  cbn [dict_get]. destruct (String.eqb k k') eqn:E.
  - apply String.eqb_eq in E. subst k'. exfalso. apply Hk. left. reflexivity.
  - apply IH. intros Hin. apply Hk. right. exact Hin.
Qed.

Lemma dict_get_update_dict {V} (k : string) (items d : list (string * V)) :
  NoDup (dict_keys items) ->
  dict_get k (dict_update d items) =
  match dict_get k items with
  | Some v => Some v
  | None => dict_get k d
  end.
Proof.
  unfold dict_update. revert d.
  induction items as [| [k' v'] items IH]; intros d Hnd; [reflexivity |].
  cbn [dict_keys map fst] in Hnd. inversion Hnd as [| ? ? Hnotin Hnd']; subst.
  cbn [fold_left fst snd]. rewrite (IH _ Hnd'). cbn [dict_get].
  rewrite dict_get_set. destruct (String.eqb k k') eqn:E; [| reflexivity].
  apply String.eqb_eq in E. subst k'.
  rewrite (dict_get_absent k items Hnotin). reflexivity.
Qed.

(** X8: what the request body holds under a key.  A generation parameter
    reaches the request unchanged; [messages] holds the conversation
    unless the parameters have a [messages] of their own, which then
    replaces it; the Llama 3 body has [steam = True] on top, whatever the
    parameters say; no other key is sent. *)
Theorem request_body_lookup
    (messages : list pyval) (parameters : list (string * pyval)) (k : string) :
  NoDup (dict_keys parameters) ->
  let sent :=
    match dict_get k parameters with
    | Some v => ok v
    | None => if String.eqb k "messages" then ok (PList messages) else raise KeyError
    end in
  getitem (Mixtral.request_body messages parameters) k = sent /\
  getitem (Llama3.request_body messages parameters) k =
    (if String.eqb k "steam" then ok (PBool true) else sent).
Proof.
  intros Hnd. cbv zeta.
  unfold Mixtral.request_body, Llama3.request_body. cbn [getitem].
  rewrite dict_get_set, (dict_get_update_dict k parameters _ Hnd).
  change (py_dict [("messages", PList messages)]) with [("messages", PList messages)].
  cbn [dict_get].
  destruct (dict_get k parameters) as [v |];
    destruct (String.eqb k "steam"), (String.eqb k "messages"); split; reflexivity.
Qed.

Lemma request_body_lookup_witness :
  let sent := ok (PList []) in
  getitem (Mixtral.request_body Mixtral.messages [("messages", PList [])]) "messages"
  = sent /\
  getitem (Llama3.request_body Llama3.messages [("messages", PList [])]) "messages"
  = (if String.eqb "messages" "steam" then ok (PBool true) else sent).
Proof.
  apply (request_body_lookup Mixtral.messages [("messages", PList [])] "messages").
  repeat constructor. intros [].
Defined.

(** X9: the response from which the chat cell gets a content is exactly
    a dict whose [choices] is a list with a dict first, whose [message]
    is a dict with a [content]; further choices are not looked at. *)
Theorem chat_content_shape (chat v : pyval) :
  chat_content chat = ok v <->
  exists d cd md rest,
    chat = PDict d /\
    dict_get "choices" d = Some (PList (PDict cd :: rest)) /\
    dict_get "message" cd = Some (PDict md) /\
    dict_get "content" md = Some v.
Proof.
  unfold chat_content. split.
  - destruct chat as [| | | | | | d]; try discriminate. cbn [getitem rbind].
    destruct (dict_get "choices" d) as [choices |] eqn:Hc; [| discriminate].
    cbn [rbind ok].
    destruct choices as [| | | | t | l |]; try discriminate.
    + cbn [getitem]. destruct (seq_index (list_ascii_of_string t) 0); discriminate.
    + destruct l as [| choice rest]; [discriminate |].
      cbn [getitem]. rewrite seq_index_head. cbn [rbind ok].
      destruct choice as [| | | | | | cd]; try discriminate. cbn [getitem].
      destruct (dict_get "message" cd) as [message |] eqn:Hm; [| discriminate].
      cbn [rbind ok].
      destruct message as [| | | | | | md]; try discriminate. cbn [getitem].
      destruct (dict_get "content" md) as [c |] eqn:Hv; [| discriminate].
      intros [= <-]. exists d, cd, md, rest. auto.
  - intros (d & cd & md & rest & -> & Hc & Hm & Hv).
    cbn [getitem]. rewrite Hc. cbn [rbind ok getitem]. rewrite seq_index_head.
    cbn [rbind ok getitem]. rewrite Hm. cbn [rbind ok getitem]. rewrite Hv.
    reflexivity.
Qed.

(** X10: what the chat cell does with a response it cannot use.  With
    no [choices] key it ends with KeyError, with an empty list of
    choices with IndexError, and with a content that is null (or
    anything but a string) with AttributeError; in each case nothing is
    printed. *)
Theorem chat_response_errors
    {St : Type} (w : world St) (s : St) (d : list (string * pyval)) :
  (dict_get "choices" d = None ->
   let o := run w (print_chat (PDict d)) s in
   returned o = raise KeyError /\ stdout o = []) /\
  (dict_get "choices" d = Some (PList []) ->
   let o := run w (print_chat (PDict d)) s in
   returned o = raise IndexError /\ stdout o = []) /\
  (forall v : pyval,
     chat_content (PDict d) = ok v ->
     let o := run w (print_chat (PDict d)) s in
     match v with
     | PStr text => returned o = ok tt /\ stdout o = [[Stripped text]]
     | _ => returned o = raise AttributeError /\ stdout o = []
     end).
Proof.
  unfold print_chat. split; [| split].
  - intros Hc. unfold chat_content. cbn [getitem]. rewrite Hc. split; reflexivity.
  - intros Hc. unfold chat_content. cbn [getitem]. rewrite Hc. split; reflexivity.
  - intros v Hv. rewrite Hv. destruct v; split; reflexivity.
Qed.

(** ** More on whole runs *)

Lemma prints_ret {A} (a : A) : prints 0 (Ret a).
Proof. intros St w s _. reflexivity. Qed.

Lemma prints_lift {A} (r : result A) : prints 0 (lift r).
Proof. intros St w s _. destruct r; reflexivity. Qed.

Lemma prints_call {X} (o : op X) : prints 0 (call o).
Proof.
  intros St w s _. unfold call. cbn [run].
  destruct (w X o s) as [[e | x] s']; reflexivity.
Qed.

Lemma prints_print (l : line) : prints 1 (print l).
Proof. intros St w s _. reflexivity. Qed.

Lemma prints_bind {A B} (k m n : nat) (c : cell A) (f : A -> cell B) :
  prints k c -> (forall a, prints m (f a)) -> n = (k + m)%nat -> prints n (bind c f).
Proof.
  intros Hc Hf -> St w s. rewrite run_bind. cbv zeta.
  specialize (Hc St w s).
  destruct (returned (run w c s)) as [e | a]; cbn [returned stdout].
  - intros [b Hb]. discriminate Hb.
  - intros Hok. rewrite length_app, Hc by (exists a; reflexivity).
    rewrite (Hf a St w (final (run w c s)) Hok). reflexivity.
Qed.

Lemma deletes_after_clean_up (llm : Predictor) : deletes_after 0 (clean_up llm).
Proof.
  intros St w s _. unfold clean_up, call. cbn [bind run].
  destruct (w _ _ s) as [[e | x] s1]; [reflexivity |]. cbn [stdout].
  destruct (w _ _ s1) as [[e | y] s2]; reflexivity.
Qed.

Lemma deletes_after_bind {A B} (k n total : nat) (c : cell A) (f : A -> cell B) :
  avoids is_deletion c -> prints k c -> (forall a, deletes_after n (f a)) ->
  total = (k + n)%nat -> deletes_after total (bind c f).
Proof.
  intros Hav Hc Hf -> St w s. rewrite run_bind. cbv zeta.
  specialize (Hav St w s). specialize (Hc St w s).
  destruct (returned (run w c s)) as [e | a]; cbn [calls stdout].
  - rewrite Hav. discriminate.
  - rewrite existsb_app, Hav. cbn [orb]. intros Hdel.
    rewrite length_app, Hc by (exists a; reflexivity).
    rewrite (Hf a St w (final (run w c s)) Hdel). reflexivity.
Qed.

Ltac unfold_cells_but_clean_up :=
  unfold Llama3.notebook, Llama3.create_model, Llama3.deploy, Llama3.chat,
    Llama3.demo, Llama3.reader, Llama3.print_results,
    Mixtral.notebook, Mixtral.compile, Mixtral.create_model, Mixtral.deploy,
    Mixtral.chat, Mixtral.demo, Mixtral.reader, Mixtral.print_results,
    install_llmperf, token_benchmark, load_summary, print_chat;
  cbv zeta.

Ltac count :=
  first
    [ apply prints_ret
    | apply prints_lift
    | apply prints_call
    | apply prints_print
    | eapply prints_bind; [count | intro; count | reflexivity] ].

Ltac after_output :=
  first
    [ apply deletes_after_clean_up
    | eapply deletes_after_bind;
      [solve [avoid] | solve [count] | intro; after_output | reflexivity] ].

(** X11: the clean-up is the last cell and nothing guards it: in every
    run in which a deletion call is made, the cells before it have all
    returned normally, so the chat answer and every line of the reader
    have been printed (7 lines for Llama 3, 8 for Mixtral).  A run in
    which an earlier cell raises makes no deletion call and leaves the
    endpoint it deployed. *)
Theorem deletion_only_after_all_output
    {St : Type} (w : world St) (s : St)
    (int_of_str : string -> option Z) (role llm_image : string) :
  let llama := run w (Llama3.notebook role llm_image) s in
  let mixtral := run w (Mixtral.notebook int_of_str role llm_image) s in
  (existsb is_deletion (calls llama) = true -> List.length (stdout llama) = 7%nat) /\
  (existsb is_deletion (calls mixtral) = true -> List.length (stdout mixtral) = 8%nat).
Proof.
  split.
  - assert (H : deletes_after 7 (Llama3.notebook role llm_image))
      by (unfold_cells_but_clean_up; after_output).
    apply H.
  - assert (H : deletes_after 8 (Mixtral.notebook int_of_str role llm_image))
      by (unfold_cells_but_clean_up; after_output).
    apply H.
Qed.

(** On the sample account, a run whose benchmark left no summary ends
    with IndexError and the endpoint still in service. *)
Example endpoint_left_running :
  let o := run sim_world (Mixtral.notebook (fun _ => None) "role" "image")
             {| results := []; hf_token := None; models := []; endpoints := [];
                created := O;
                completion :=
                  PDict [("choices",
                          PList [PDict [("message",
                                         PDict [("role", PStr "assistant");
                                                ("content", PStr "Deep learning is")])]])] |} in
  returned o = raise IndexError /\ endpoints (final o) = ["endpoint-0"] /\
  existsb is_deletion (calls o) = false.
Proof. vm_compute. repeat split; reflexivity. Qed.

Lemma handles_app (l1 l2 : list event) :
  handles (l1 ++ l2) = (handles l1 ++ handles l2)%list.
Proof.
  induction l1 as [| e l1 IH]; [reflexivity |].
  cbn [app handles]. destruct (handle_of e); rewrite IH; reflexivity.
Qed.

Lemma handles_one_name (name : string) (l : list event) :
  existsb (names_other name) l = false -> Forall (eq name) (handles l).
Proof.
  induction l as [| e l IH]; intros H; [constructor |].
  cbn [existsb] in H. apply orb_false_elim in H as [He H].
  cbn [handles]. unfold names_other in He.
  destruct (handle_of e) as [name' |]; [| exact (IH H)].
  constructor; [| exact (IH H)].
  apply negb_false_iff, String.eqb_eq in He. exact He.
Qed.

Ltac avoid_others :=
  repeat first
    [ apply avoids_ret
    | apply avoids_lift
    | apply avoids_print
    | apply avoids_call; unfold names_other, handle_of, Event;
      rewrite ?String.eqb_refl; reflexivity
    | apply avoids_bind
    | intro ].

(** X12: one endpoint per run.  Whatever the platform answers, a run of
    either notebook makes at most one deploy call, and all its inference,
    demo and deletion calls name one and the same endpoint. *)
Theorem one_endpoint_per_run
    {St : Type} (w : world St) (s : St)
    (int_of_str : string -> option Z) (role llm_image : string) :
  let llama := calls (run w (Llama3.notebook role llm_image) s) in
  let mixtral := calls (run w (Mixtral.notebook int_of_str role llm_image) s) in
  (List.length (deploy_envs llama) <= 1)%nat /\
  (exists name, Forall (eq name) (handles llama)) /\
  (List.length (deploy_envs mixtral) <= 1)%nat /\
  (exists name, Forall (eq name) (handles mixtral)).
Proof.
  cbv zeta.
  assert (Hl : (List.length (deploy_envs (calls (run w (Llama3.notebook role llm_image) s))) <= 1)%nat /\
               exists name, Forall (eq name) (handles (calls (run w (Llama3.notebook role llm_image) s)))).
  { unfold Llama3.notebook, Llama3.create_model, Llama3.deploy, call. cbv zeta.
    cbn [bind run].
    destruct (w _ HfFolder_get_token s) as [[e | token] s1];
      cbn [calls deploy_envs handles handle_of Event].
    - split; [cbn; lia | exists ""; constructor].
    - destruct (w _ _ s1) as [[e | llm] s2];
        cbn [calls deploy_envs handles handle_of Event].
      + split; [cbn; lia | exists ""; constructor].
      + split.
        * rewrite deploy_envs_avoids by (unfold_cells; avoid). cbn. lia.
        * exists (endpoint_name llm). apply handles_one_name.
          assert (H : avoids (names_other (endpoint_name llm))
                        (Llama3.chat llm;; Llama3.demo llm;; install_llmperf;;
                         token_benchmark llm "50";; Llama3.reader;; clean_up llm)%cell)
            by (unfold_cells; avoid_others).
          apply H. }
  assert (Hm : (List.length (deploy_envs (calls (run w (Mixtral.notebook int_of_str role llm_image) s))) <= 1)%nat /\
               exists name, Forall (eq name) (handles (calls (run w (Mixtral.notebook int_of_str role llm_image) s)))).
  { unfold Mixtral.notebook. rewrite run_bind. cbv zeta.
    assert (Hc : deploy_envs (calls (run w Mixtral.compile s)) = [])
      by (apply deploy_envs_avoids; unfold_cells; avoid).
    assert (Hh : handles (calls (run w Mixtral.compile s)) = []).
    { assert (H : avoids (names_other "") Mixtral.compile)
        by (unfold_cells; avoid_others).
      specialize (H St w s). apply handles_one_name in H.
      destruct (handles (calls (run w Mixtral.compile s))) as [| n l] eqn:E;
        [reflexivity |].
      exfalso. revert E. unfold Mixtral.compile, call. cbn [bind run].
      destruct (w _ _ s) as [[e | x] s1]; cbn [calls handles handle_of Event];
        [discriminate |].
      destruct (w _ _ s1) as [[e | y] s2]; cbn [calls handles handle_of Event];
        [discriminate |].
      destruct (w _ _ s2) as [[e | z] s3]; cbn [calls handles handle_of Event];
        discriminate. }
    destruct (returned (run w Mixtral.compile s)) as [e | []]; cbn [calls].
    - rewrite Hc, Hh. split; [cbn; lia | exists ""; constructor].
    - rewrite deploy_envs_app, handles_app, Hc, Hh. cbn [app].
      unfold Mixtral.create_model, Mixtral.deploy, call. cbv zeta.
      cbn [bind run].
      destruct (w _ _ (final (run w Mixtral.compile s))) as [[e | llm] s1];
        cbn [calls deploy_envs handles handle_of Event].
      + split; [cbn; lia | exists ""; constructor].
      + split.
        * rewrite deploy_envs_avoids by (unfold_cells; avoid). cbn. lia.
        * exists (endpoint_name llm). apply handles_one_name.
          assert (H : avoids (names_other (endpoint_name llm))
                        (Mixtral.chat llm;; Mixtral.demo llm;; install_llmperf;;
                         token_benchmark llm "100";; Mixtral.reader int_of_str;;
                         clean_up llm)%cell)
            by (unfold_cells; avoid_others).
          apply H. }
  destruct Hl as [Hl1 Hl2], Hm as [Hm1 Hm2]. auto.
Qed.

(** X18: the clean-up deletes the model first and does not go on after
    a failure: when [delete_model] raises, the cell ends with that
    exception and [delete_endpoint] is never called. *)
Theorem failed_model_deletion_skips_endpoint
    {St : Type} (w : world St) (llm : Predictor) (s s1 : St) (e : exn) :
  w _ (Delete_model llm) s = (raise e, s1) ->
  let o := run w (clean_up llm) s in
  returned o = raise e /\ final o = s1 /\ calls o = [Event (Delete_model llm)].
Proof.
  intros Hw. unfold clean_up, call. cbn [bind run]. rewrite Hw.
  repeat split; reflexivity.
Qed.

Lemma failed_model_deletion_skips_endpoint_witness :
  let o := run sim_world (clean_up {| sagemaker.endpoint_name := "endpoint-0" |})
             endpoint_without_model in
  returned o = raise ClientError /\ final o = endpoint_without_model /\
  calls o = [Event (Delete_model {| sagemaker.endpoint_name := "endpoint-0" |})].
Proof.
  apply (failed_model_deletion_skips_endpoint sim_world
           {| sagemaker.endpoint_name := "endpoint-0" |}
           endpoint_without_model endpoint_without_model ClientError).
  reflexivity.
Defined.

(** ** The session cell *)

(** Follow the session cell through every answer it can get. *)
Ltac replies w :=
  repeat (cbn [andthen catch ask say attempt play ended said asked left_in ok raise];
          match goal with
          | |- context [w ?X ?o ?s] =>
              let e := fresh "e" in
              let x := fresh "x" in
              let s' := fresh "s" in
              destruct (w X o s) as [[e | x] s']
          | |- context [is_ValueError ?e] =>
              let E := fresh "E" in
              destruct (is_ValueError e) eqn:E
          | |- context [attempt ?r] => destruct r
          end);
  cbn [andthen catch ask say attempt play ended said asked left_in ok raise].

(** X13: the session cell prints at the very end: either it returns the
    role and the session and has printed the two lines that show them,
    or it ends with an exception and has printed nothing. *)
Theorem session_cell_prints_all_or_nothing {St : Type} (w : setup_world St) (s : St) :
  let t := play w session_cell s in
  match ended t with
  | inr (role, sess) =>
      said t = [ [Text "sagemaker role arn: "; Str role];
                 [Text "sagemaker session region: "; Text (boto_region_name sess)] ]
  | inl _ => said t = []
  end.
Proof.
  cbv zeta. unfold session_cell. replies w; reflexivity.
Qed.

(** X14: IAM is the fallback for a ValueError only.  In every run of the
    session cell in which the IAM client is created or asked for the
    role, [get_execution_role] has raised a ValueError (or a subclass). *)
Theorem iam_only_after_value_error {St : Type} (w : setup_world St) (s : St) :
  let log := asked (play w session_cell s) in
  existsb is_iam log = true ->
  existsb is_ValueError (pick role_error log) = true.
Proof.
  cbv zeta. unfold session_cell. replies w;
    cbn [existsb is_iam pick role_error orb]; try discriminate;
    intros _; rewrite E; reflexivity.
Qed.

Lemma iam_only_after_value_error_witness :
  existsb is_ValueError (pick role_error (asked (play machine_world session_cell laptop)))
  = true.
Proof.
  apply (iam_only_after_value_error machine_world laptop). reflexivity.
Defined.

(** X15: any other exception of [get_execution_role] ends the session
    cell: the cell ends with that exception, nothing is printed, IAM is
    not asked and no session is opened on the bucket. *)
Theorem other_role_errors_end_the_cell
    {St : Type} (w : setup_world St) (s : St) (e : exn) :
  let t := play w session_cell s in
  In e (pick role_error (asked t)) ->
  is_ValueError e = false ->
  ended t = raise e /\ said t = [] /\
  existsb is_iam (asked t) = false /\ pick session_bucket (asked t) = [].
Proof.
  cbv zeta. unfold session_cell. replies w;
    cbn [pick role_error session_bucket existsb is_iam orb In];
    intros Hin Hne;
    repeat match goal with
           | H : _ \/ _ |- _ => destruct H
           | H : False |- _ => destruct H
           end;
    subst; try congruence; repeat split; reflexivity.
Qed.

Lemma other_role_errors_end_the_cell_witness :
  let t := play machine_world session_cell no_credentials in
  ended t = raise ClientError /\ said t = [] /\
  existsb is_iam (asked t) = false /\ pick session_bucket (asked t) = [].
Proof.
  apply (other_role_errors_end_the_cell machine_world no_credentials ClientError).
  - left. reflexivity.
  - reflexivity.
Defined.

(** X16: the session that the cell returns is opened on the bucket that
    [default_bucket] returned for the first session: a run opens at most
    one session on a bucket, and then on that one. *)
Theorem session_opened_on_default_bucket {St : Type} (w : setup_world St) (s : St) :
  let log := asked (play w session_cell s) in
  pick session_bucket log = [] \/
  exists b : string, pick session_bucket log = [b] /\ pick bucket_found log = [b].
Proof.
  cbv zeta. unfold session_cell. replies w;
    cbn [pick session_bucket bucket_found];
    first [left; reflexivity | right; eexists; split; reflexivity].
Qed.

(** X17: where the role comes from.  When the session cell returns a
    role, either [get_execution_role] returned it and IAM was not asked,
    or [get_execution_role] raised a ValueError and the role is what the
    answer of IAM's [get_role] holds under [Role] and then [Arn]. *)
Theorem role_comes_from_sdk_or_iam
    {St : Type} (w : setup_world St) (s : St) (role : pyval) (sess : Session) :
  let t := play w session_cell s in
  ended t = ok (role, sess) ->
  (exists r : string,
     role = PStr r /\ pick role_found (asked t) = [r] /\
     existsb is_iam (asked t) = false) \/
  (exists answer role_dict : pyval,
     pick iam_found (asked t) = [answer] /\
     getitem answer "Role" = ok role_dict /\ getitem role_dict "Arn" = ok role /\
     existsb is_ValueError (pick role_error (asked t)) = true).
Proof.
  cbv zeta. unfold session_cell.
  repeat (cbn [andthen catch ask say attempt play ended said asked left_in ok raise];
          match goal with
          | |- context [w ?X ?o ?s] =>
              let e := fresh "e" in
              let x := fresh "x" in
              let s' := fresh "s" in
              destruct (w X o s) as [[e | x] s']
          | |- context [is_ValueError ?e] =>
              let E := fresh "E" in
              destruct (is_ValueError e) eqn:E
          | |- context [attempt ?r] =>
              let R := fresh "R" in
              destruct r eqn:R
          end);
    cbn [andthen catch ask say attempt play ended said asked left_in ok raise];
    try discriminate; intros [= <- <-].
  - right.
    match goal with
    | R : rbind (getitem ?a _) _ = inr _ |- _ =>
        destruct (getitem a "Role") as [? | role_dict] eqn:R1;
        [discriminate R |]; cbn [rbind] in R;
        exists a, role_dict
    end.
    cbn [pick iam_found role_error existsb]. rewrite E.
    repeat split; assumption || reflexivity.
  - left. eexists. cbn [pick role_found existsb is_iam orb]. repeat split; reflexivity.
Qed.

Lemma role_comes_from_sdk_or_iam_witness :
  let t := play machine_world session_cell laptop in
  (exists r : string,
     PStr "arn:aws:iam::123456789012:role/sagemaker_execution_role" = PStr r /\
     pick role_found (asked t) = [r] /\
     existsb is_iam (asked t) = false) \/
  (exists answer role_dict : pyval,
     pick iam_found (asked t) = [answer] /\
     getitem answer "Role" = ok role_dict /\
     getitem role_dict "Arn"
     = ok (PStr "arn:aws:iam::123456789012:role/sagemaker_execution_role") /\
     existsb is_ValueError (pick role_error (asked t)) = true).
Proof.
  apply (role_comes_from_sdk_or_iam machine_world laptop
           (PStr "arn:aws:iam::123456789012:role/sagemaker_execution_role")
           {| boto_region_name := "us-east-1" |}).
  reflexivity.
Defined.

(** The three sample machines. *)
Example session_cell_samples :
  ended (play machine_world session_cell studio)
  = ok (PStr "arn:aws:iam::123456789012:role/service-role/studio",
        {| boto_region_name := "us-east-1" |}) /\
  ended (play machine_world session_cell laptop)
  = ok (PStr "arn:aws:iam::123456789012:role/sagemaker_execution_role",
        {| boto_region_name := "us-east-1" |}) /\
  ended (play machine_world session_cell no_credentials) = raise ClientError.
Proof. repeat split; reflexivity. Qed.
